(** * Bootcamp directory API: the bootcamps controller

    A shallow embedding of [controllers/bootcamps.js].  Two groups of code
    are embedded:

    - the list endpoint as the controller file keeps it in its closing
      comment block ("Get all Bootcamps before refactoring", lines
      218-294): removal of the reserved parameters, the operator rewrite
      on the serialised filter, field selection, sorting and pagination;
    - the live handlers [getBootcamps], [getBootcamp], [createBootcamp],
      [updateBootcamp], [deleteBootcamp] and [bootcampPhotoUpload], as
      state-passing programs over the collection that record the calls
      they make ([next], [res.json], [file.mv]); [getBootcampsInRadius]
      among them, with the geocoder, the division of the distance and the
      store's geometric test as parameters.

    The numbers of the list endpoint (the parsed page and limit, the skip,
    the windows of the pagination object) are embedded as doubles with an
    integer value, an infinity, minus zero or [NaN], every operation
    rounding as IEEE 754 does; counts and sizes are embedded as [Z].
    Strings are [string]s whose characters stand for code units below 256.
    An object is the list of its properties in enumeration order. *)

From Stdlib Require Import String Ascii List ZArith Lia Bool Arith.
Import ListNotations.
Local Open Scope string_scope.

(** ** JavaScript string and number primitives used by the controller *)

Module JS.

(** Query-string values as the body parser hands them over: a string, an
    array or a nested object ([averageCost[gte]=1000] arrives as
    [{averageCost: {gte: "1000"}}]). *)
#[warnings="-register-all"]
Inductive qval : Type :=
| QStr (s : string)
| QArr (items : list qval)
| QObj (props : list (string * qval)).

(** [req.query]: a plain object from parameter names to values. *)
Definition query := list (string * qval).

(** Property read [o[k]]; [None] is [undefined]. *)
Fixpoint getProp {A : Type} (k : string) (o : list (string * A)) : option A :=
  match o with
  | [] => None
  | (k', v) :: o' => if String.eqb k k' then Some v else getProp k o'
  end.

(** [delete o[k]]. *)
Definition deleteProp {A : Type} (k : string) (o : list (string * A))
  : list (string * A) :=
  filter (fun kv => negb (String.eqb k (fst kv))) o.

(** [Array.prototype.join]. *)
Definition join (sep : string) (l : list string) : string := String.concat sep l.

(** [String.prototype.split] with a one-character separator: the result
    always has at least one element. *)
Fixpoint split (sep : ascii) (s : string) : list string :=
  match s with
  | EmptyString => [EmptyString]
  | String c s' =>
      if Ascii.eqb c sep then EmptyString :: split sep s'
      else match split sep s' with
           | [] => [String c EmptyString]
           | w :: ws => String c w :: ws
           end
  end.

(** [String.prototype.startsWith]. *)
Definition startsWith (s p : string) : bool := String.prefix p s.

(** [ToString] on a query value: arrays join their elements with a comma,
    plain objects print as [[object Object]]. *)
Fixpoint ToString (v : qval) : string :=
  match v with
  | QStr s => s
  | QArr items => join "," (map ToString items)
  | QObj _ => "[object Object]"
  end.

(** [ToString] of a possibly absent property. *)
Definition ToStringOpt (v : option qval) : string :=
  match v with
  | None => "undefined"
  | Some v => ToString v
  end.

(** [ToBoolean]: [undefined] and the empty string are falsy, every array
    and object is truthy. *)
Definition truthy (v : option qval) : bool :=
  match v with
  | None => false
  | Some (QStr s) => negb (String.eqb s "")
  | Some _ => true
  end.

(** White space skipped by [parseInt] (tab, line feed, vertical tab, form
    feed, carriage return, space, no-break space). *)
Definition isWhite (c : ascii) : bool :=
  let n := nat_of_ascii c in
  ((9 <=? n)%nat && (n <=? 13)%nat) || (n =? 32)%nat || (n =? 160)%nat.

Fixpoint trimStart (s : string) : string :=
  match s with
  | String c s' => if isWhite c then trimStart s' else s
  | EmptyString => s
  end.

Definition digitVal (c : ascii) : option Z :=
  let n := nat_of_ascii c in
  if ((48 <=? n)%nat && (n <=? 57)%nat)%bool then Some (Z.of_nat n - 48)%Z else None.

(** Value of the longest prefix of decimal digits; [acc] is [None] until a
    first digit has been read. *)
Fixpoint digitsPrefix (s : string) (acc : option Z) : option Z :=
  match s with
  | String c s' =>
      match digitVal c with
      | Some d =>
          digitsPrefix s' (Some (10 * match acc with Some a => a | None => 0 end + d)%Z)
      | None => acc
      end
  | EmptyString => acc
  end.

(** An optional sign in front of the digits. *)
Definition signed (s : string) : Z * string :=
  match s with
  | String "-" r => ((-1)%Z, r)
  | String "+" r => (1%Z, r)
  | _ => (1%Z, s)
  end.

(** *** Numbers

    A JavaScript number is an IEEE 754 double.  The list endpoint computes
    with integers only ([parseInt], [+ 1], [- 1] and [*]), so a number is
    embedded as the integer it equals, minus zero, an infinity or [NaN];
    each operation rounds its exact result to the nearest double, ties to
    the even significand, and overflows to an infinity. *)
Inductive number : Type :=
| NaN
| Inf (negative : bool)
| NegZero
| Int (z : Z).

(** The double nearest to a non-negative integer [m], as an integer.
    Below 2^53 every integer is a double; from there on the 53 leading
    bits are kept and the rest is rounded, ties to even. *)
Definition roundMag (m : Z) : Z :=
  if (m <? 2 ^ 53)%Z then m
  else
    let e := (Z.log2 m - 52)%Z in
    let q := (m / 2 ^ e)%Z in
    let r := (m mod 2 ^ e)%Z in
    let half := (2 ^ (e - 1))%Z in
    let up := ((half <? r)%Z || ((r =? half)%Z && Z.odd q))%bool in
    ((if up then q + 1 else q) * 2 ^ e)%Z.

(** The number nearest to an integer: a magnitude that rounds to 2^1024
    or more is out of the range of the doubles. *)
Definition ofZ (z : Z) : number :=
  let m := roundMag (Z.abs z) in
  if (2 ^ 1024 <=? m)%Z then Inf (z <? 0)%Z else Int (Z.sgn z * m).

Definition isNaN (n : number) : bool :=
  match n with NaN => true | _ => false end.

Definition isInf (n : number) : bool :=
  match n with Inf _ => true | _ => false end.

Definition isZero (n : number) : bool :=
  match n with NegZero => true | Int z => (z =? 0)%Z | _ => false end.

(** The sign bit. *)
Definition isNegative (n : number) : bool :=
  match n with
  | Inf s => s
  | NegZero => true
  | Int z => (z <? 0)%Z
  | NaN => false
  end.

(** The integer a finite number equals. *)
Definition value (n : number) : Z :=
  match n with Int z => z | _ => 0%Z end.

Definition zero (negative : bool) : number :=
  if negative then NegZero else Int 0.

(** Unary minus. *)
Definition opp (n : number) : number :=
  match n with
  | NaN => NaN
  | Inf s => Inf (negb s)
  | NegZero => Int 0
  | Int z => if (z =? 0)%Z then NegZero else Int (- z)
  end.

(** [a + b]: opposite infinities give [NaN]; a zero sum is [+0] unless
    both operands are [-0]. *)
Definition add (a b : number) : number :=
  match a, b with
  | NaN, _ | _, NaN => NaN
  | Inf s, Inf t => if Bool.eqb s t then Inf s else NaN
  | Inf s, _ => Inf s
  | _, Inf t => Inf t
  | NegZero, NegZero => NegZero
  | NegZero, Int y => Int y
  | Int x, NegZero => Int x
  | Int x, Int y => ofZ (x + y)
  end.

(** [a - b]. *)
Definition sub (a b : number) : number := add a (opp b).

(** [a * b]: an infinity times a zero is [NaN]; the sign of a zero or of
    an infinity is the exclusive or of the operands' signs. *)
Definition mul (a b : number) : number :=
  let s := xorb (isNegative a) (isNegative b) in
  if (isNaN a || isNaN b)%bool then NaN
  else if (isInf a || isInf b)%bool
       then (if (isZero a || isZero b)%bool then NaN else Inf s)
  else if (isZero a || isZero b)%bool then zero s
  else ofZ (value a * value b).

(** [a < b]: false when either is [NaN]; the two zeros are equal. *)
Definition lt (a b : number) : bool :=
  match a, b with
  | NaN, _ | _, NaN => false
  | Inf s, Inf t => (s && negb t)%bool
  | Inf s, _ => s
  | _, Inf t => negb t
  | _, _ => (value a <? value b)%Z
  end.

(** [a <= b]. *)
Definition le (a b : number) : bool :=
  (negb (isNaN a || isNaN b) && negb (lt b a))%bool.

(** [parseInt(v, 10)]: skip white space, read an optional sign, then the
    longest run of decimal digits.  No digit gives [NaN], the digits of
    zero give a zero with the sign read, and any other numeral gives the
    double nearest to it.  (ECMAScript lets an implementation replace the
    digits after the twentieth by zeros before rounding; the engine Node
    runs on rounds the numeral itself.) *)
Definition parseInt10 (v : option qval) : number :=
  let '(sign, s) := signed (trimStart (ToStringOpt v)) in
  match digitsPrefix s None with
  | None => NaN
  | Some n => if (n =? 0)%Z then zero (sign <? 0)%Z else ofZ (sign * n)
  end.

(** [n || d] on a number: [NaN] and the two zeros are falsy. *)
Definition orDefault (n d : number) : number :=
  if (isNaN n || isZero n)%bool then d else n.

End JS.

Import JS.

(** ** Pagination of the list endpoint (lines 256-284) *)

Module Pagination.

(** A window descriptor [{ page, limit }]. *)
Record window : Type := Window { w_page : number; w_limit : number }.

(** [const page = parseInt(req.query.page, 10) || 1;] *)
Definition pageOf (q : query) : number :=
  orDefault (parseInt10 (getProp "page" q)) (Int 1).

(** [const limit = parseInt(req.query.limit, 10) || 25;] *)
Definition limitOf (q : query) : number :=
  orDefault (parseInt10 (getProp "limit" q)) (Int 25).

(** [const startIndex = (page - 1) * limit;] *)
Definition startIndex (page limit : number) : number :=
  mul (sub page (Int 1)) limit.

(** [const endIndex = page * limit;] *)
Definition endIndex (page limit : number) : number := mul page limit.

(** The [pagination] object: it starts empty, [next] is assigned when
    [endIndex < total], then [prev] when [startIndex > 0].  [total] is the
    count the store reports, compared as the number it is. *)
Definition pagination (page limit : number) (total : Z) : list (string * window) :=
  (if lt (endIndex page limit) (ofZ total)
   then [("next", Window (add page (Int 1)) limit)] else [])
  ++
  (if lt (Int 0) (startIndex page limit)
   then [("prev", Window (sub page (Int 1)) limit)] else []).

End Pagination.

Import Pagination.

(** ** JSON serialisation and the operator rewrite (lines 231-239) *)

Module Json.

(** The double quote and the backslash, by code. *)
Definition dquote : ascii := "034"%char.
Definition backslash : ascii := "092"%char.

Definition hexDigit (n : nat) : ascii :=
  match get n "0123456789abcdef" with
  | Some c => c
  | None => "0"%char
  end.

(** One character of a quoted JSON string, as [JSON.stringify] writes it:
    the quote and the backslash are escaped, control characters get their
    short escape or a four-digit hexadecimal escape, everything else is
    copied. *)
Definition escapeChar (c : ascii) : string :=
  let n := nat_of_ascii c in
  if Ascii.eqb c dquote then String backslash (String dquote EmptyString)
  else if Ascii.eqb c backslash then String backslash (String backslash EmptyString)
  else if (n <? 32)%nat then
    match n with
    | 8 => "\b"
    | 9 => "\t"
    | 10 => "\n"
    | 12 => "\f"
    | 13 => "\r"
    | _ => "\u00" ++ String (hexDigit (n / 16)) (String (hexDigit (n mod 16)) EmptyString)
    end
  else String c EmptyString.

Fixpoint escape (s : string) : string :=
  match s with
  | EmptyString => EmptyString
  | String c s' => escapeChar c ++ escape s'
  end.

Definition quote (s : string) : string :=
  String dquote (escape s ++ String dquote EmptyString).

(** [JSON.stringify] on a query value. *)
Fixpoint stringify (v : qval) : string :=
  match v with
  | QStr s => quote s
  | QArr items => "[" ++ join "," (map stringify items) ++ "]"
  | QObj props =>
      "{" ++ join "," (map (fun kv => quote (fst kv) ++ ":" ++ stringify (snd kv)) props)
          ++ "}"
  end.

(** *** The rewrite [queryStr.replace(/\b(gt|gte|lt|lte|in)\b/g, match => `$${match}`)] *)

(** The class [\w]: letters, digits and the underscore. *)
Definition isWordChar (c : ascii) : bool :=
  let n := nat_of_ascii c in
  ((48 <=? n)%nat && (n <=? 57)%nat) || ((65 <=? n)%nat && (n <=? 90)%nat)
  || ((97 <=? n)%nat && (n <=? 122)%nat) || (n =? 95)%nat.

(** The alternatives of the group, in the order the pattern lists them. *)
Definition operators : list string := ["gt"; "gte"; "lt"; "lte"; "in"].

Definition headIsWord (s : string) : bool :=
  match s with
  | String c _ => isWordChar c
  | EmptyString => false
  end.

(** The assertion [\b] between a character of class [prev] and the text
    [rest]: exactly one side is a word character. *)
Definition wordBoundary (prev : bool) (rest : string) : bool :=
  xorb prev (headIsWord rest).

Fixpoint dropChars (n : nat) (s : string) : string :=
  match n, s with
  | S n', String _ s' => dropChars n' s'
  | _, _ => s
  end.

(** The match attempted at one position: [\b], then the first alternative
    that is a prefix of the text and is followed by [\b]. *)
Definition matchAt (prev : bool) (s : string) : option string :=
  if wordBoundary prev s then
    find (fun alt => String.prefix alt s
                     && wordBoundary true (dropChars (String.length alt) s))
         operators
  else None.

(** The global replacement, scanning left to right.  [prev] tells whether
    the character before the position is a word character; [copy] counts
    the characters of a match still to be copied after its [$]. *)
Fixpoint replaceFrom (prev : bool) (copy : nat) (s : string) : string :=
  match s with
  | EmptyString => EmptyString
  | String c s' =>
      match copy with
      | S k => String c (replaceFrom (isWordChar c) k s')
      | O =>
          match matchAt prev s with
          | Some m => String "$" (String c (replaceFrom (isWordChar c) (String.length m - 1) s'))
          | None => String c (replaceFrom (isWordChar c) 0 s')
          end
      end
  end.

Definition replaceOps (s : string) : string := replaceFrom false 0 s.

(** *** [JSON.parse], on the texts whose values are strings, arrays and
    objects (the only values a serialised query holds) *)

(** Assignment [o[k] = v]: an existing property keeps its place. *)
Fixpoint setProp {A : Type} (k : string) (v : A) (o : list (string * A))
  : list (string * A) :=
  match o with
  | [] => [(k, v)]
  | (k', v') :: o' =>
      if String.eqb k k' then (k, v) :: o' else (k', v') :: setProp k v o'
  end.

Definition isJsonWs (c : ascii) : bool :=
  let n := nat_of_ascii c in
  (n =? 9)%nat || (n =? 10)%nat || (n =? 13)%nat || (n =? 32)%nat.

Fixpoint skipWs (s : string) : string :=
  match s with
  | String c s' => if isJsonWs c then skipWs s' else s
  | EmptyString => s
  end.

Definition hexVal (c : ascii) : option nat :=
  let n := nat_of_ascii c in
  if ((48 <=? n)%nat && (n <=? 57)%nat)%bool then Some (n - 48)
  else if ((97 <=? n)%nat && (n <=? 102)%nat)%bool then Some (n - 87)
  else if ((65 <=? n)%nat && (n <=? 70)%nat)%bool then Some (n - 55)
  else None.

(** The code unit of a four-digit hexadecimal escape, when it is below
    256; [JSON.stringify] writes no other. *)
Definition hex4 (h1 h2 h3 h4 : ascii) : option ascii :=
  match hexVal h1, hexVal h2, hexVal h3, hexVal h4 with
  | Some 0, Some 0, Some c, Some d => Some (ascii_of_nat (16 * c + d))
  | _, _, _, _ => None
  end.

Definition consChar (c : ascii) (r : option (string * string))
  : option (string * string) :=
  match r with
  | Some (str, rest) => Some (String c str, rest)
  | None => None
  end.

(** The characters of a string after its opening quote, up to the closing
    quote; the result is the string and the text that follows. *)
Fixpoint parseChars (s : string) : option (string * string) :=
  match s with
  | EmptyString => None
  | String c r =>
      if Ascii.eqb c dquote then Some (EmptyString, r)
      else if Ascii.eqb c backslash then
        match r with
        | String e r' =>
            if Ascii.eqb e dquote then consChar dquote (parseChars r')
            else if Ascii.eqb e backslash then consChar backslash (parseChars r')
            else match e with
                 | "/"%char => consChar "/" (parseChars r')
                 | "b"%char => consChar "008" (parseChars r')
                 | "f"%char => consChar "012" (parseChars r')
                 | "n"%char => consChar "010" (parseChars r')
                 | "r"%char => consChar "013" (parseChars r')
                 | "t"%char => consChar "009" (parseChars r')
                 | "u"%char =>
                     match r' with
                     | String h1 (String h2 (String h3 (String h4 r''))) =>
                         match hex4 h1 h2 h3 h4 with
                         | Some u => consChar u (parseChars r'')
                         | None => None
                         end
                     | _ => None
                     end
                 | _ => None
                 end
        | EmptyString => None
        end
      else if (nat_of_ascii c <? 32)%nat then None
      else consChar c (parseChars r)
  end.

Fixpoint parseValue (fuel : nat) (s : string) : option (qval * string) :=
  match fuel with
  | O => None
  | S fuel' =>
      match skipWs s with
      | String "034" r =>
          match parseChars r with
          | Some (str, rest) => Some (QStr str, rest)
          | None => None
          end
      | String "[" r =>
          match skipWs r with
          | String "]" rest => Some (QArr [], rest)
          | _ => parseElems fuel' r []
          end
      | String "{" r =>
          match skipWs r with
          | String "}" rest => Some (QObj [], rest)
          | _ => parseMembers fuel' r []
          end
      | _ => None
      end
  end
with parseElems (fuel : nat) (s : string) (acc : list qval)
  : option (qval * string) :=
  match fuel with
  | O => None
  | S fuel' =>
      match parseValue fuel' s with
      | Some (v, rest) =>
          match skipWs rest with
          | String "," rest' => parseElems fuel' rest' (acc ++ [v])
          | String "]" rest' => Some (QArr (acc ++ [v]), rest')
          | _ => None
          end
      | None => None
      end
  end
with parseMembers (fuel : nat) (s : string) (acc : list (string * qval))
  : option (qval * string) :=
  match fuel with
  | O => None
  | S fuel' =>
      match skipWs s with
      | String "034" r =>
          match parseChars r with
          | Some (k, rest) =>
              match skipWs rest with
              | String ":" rest' =>
                  match parseValue fuel' rest' with
                  | Some (v, rest'') =>
                      match skipWs rest'' with
                      | String "," r3 => parseMembers fuel' r3 (setProp k v acc)
                      | String "}" r3 => Some (QObj (setProp k v acc), r3)
                      | _ => None
                      end
                  | None => None
                  end
              | _ => None
              end
          | None => None
          end
      | _ => None
      end
  end.

(** [JSON.parse]: one value, then only white space; [None] is the
    [SyntaxError]. *)
Definition parse (s : string) : option qval :=
  match parseValue (String.length s) s with
  | Some (v, rest) =>
      match skipWs rest with
      | EmptyString => Some v
      | _ => None
      end
  | None => None
  end.

End Json.

Import Json.

(** ** The collection and the responses *)

Module Store.

(** Modelled from the spec: the bootcamp resource record ([models/Bootcamp]
    is not among the sources).  A record is an opaque document with named
    fields; the controller itself reads only its identity and its owner. *)
Record bootcamp : Type := Bootcamp {
  _id : string;
  user : string;
  fields : list (string * string)
}.

(** A query under construction: what [find], [populate], [select], [sort],
    [skip] and [limit] have recorded. *)
Record Query : Type := {
  conditions : qval;
  populated : string;
  selected : option string;
  sorted : string;
  skipped : number;
  limited : number
}.

(** Modelled from the spec: the store query interface.  It decides whether
    a record satisfies a predicate tree, and turns the matching records
    into the answer of a query (population, field selection, sorting, skip
    and limit); [None] is a query the store rejects. *)
Record Driver : Type := {
  matches : qval -> bootcamp -> bool;
  arrange : Query -> list bootcamp -> option (list bootcamp)
}.

(** [await query]. *)
Definition exec (dr : Driver) (db : list bootcamp) (q : Query)
  : option (list bootcamp) :=
  arrange dr q (filter (matches dr (conditions q)) db).

(** [Bootcamp.countDocuments(filter)]: the number of records that satisfy
    [filter]; called without an argument it counts the whole collection. *)
Definition countDocuments (dr : Driver) (db : list bootcamp) (filter_ : option qval)
  : Z :=
  match filter_ with
  | None => Z.of_nat (length db)
  | Some p => Z.of_nat (length (filter (matches dr p) db))
  end.

End Store.

Import Store.

Module Http.

(** Values of a response body. *)
Inductive jv : Type :=
| JNull
| JBool (b : bool)
| JNum (n : Z)
| JStr (s : string)
| JDoc (d : bootcamp)
| JDocs (l : list bootcamp)
| JPagination (p : list (string * window)).

Definition body := list (string * jv).

(** [new ErrorResponse(message, statusCode)]. *)
Record ErrorResponse : Type := { message : string; statusCode : nat }.

Inductive exn : Type :=
| TypeError (what : string)
| SyntaxError
| StoreError.

(** How the list endpoint ends: a response sent with
    [res.status(..).json(..)], or an exception (a rejected promise). *)
Inductive outcome : Type :=
| Json (status : nat) (b : body)
| Threw (e : exn).

End Http.

Import Http.

(** ** The list endpoint (lines 218-294) *)

Module ListEndpoint.

(** [const removeFields = ['select', 'sort', 'page', 'limit'];] *)
Definition removeFields : list string := ["select"; "sort"; "page"; "limit"].

(** [const reqQuery = { ...req.query };] then
    [removeFields.forEach(param => delete reqQuery[param]);] *)
Definition reqQueryOf (q : query) : query :=
  fold_left (fun acc param => deleteProp param acc) removeFields q.

(** [queryStr], after the rewrite. *)
Definition queryStrOf (q : query) : string :=
  replaceOps (stringify (QObj (reqQueryOf q))).

(** [JSON.parse(queryStr)]: the predicate handed to [Bootcamp.find]. *)
Definition predicateOf (q : query) : option qval := parse (queryStrOf q).

(** [v.split(',').join(' ')]. *)
Definition spaced (v : string) : string := join " " (split "," v).

(** The argument of [query.select], when [req.query.select] is truthy;
    a truthy value that is no string has no [split] method. *)
Definition selectOf (q : query) : exn + option string :=
  match getProp "select" q with
  | Some (QStr v) => if truthy (Some (QStr v)) then inr (Some (spaced v)) else inr None
  | Some _ => inl (TypeError "req.query.select.split is not a function")
  | None => inr None
  end.

(** The argument of [query.sort]; [-createdAt] when [req.query.sort] is
    falsy. *)
Definition sortOf (q : query) : exn + string :=
  match getProp "sort" q with
  | Some (QStr v) => if truthy (Some (QStr v)) then inr (spaced v) else inr "-createdAt"
  | Some _ => inl (TypeError "req.query.sort.split is not a function")
  | None => inr "-createdAt"
  end.

(** [const total = await Bootcamp.countDocuments();] *)
Definition totalOf (dr : Driver) (db : list bootcamp) : Z := countDocuments dr db None.

(** The handler as a whole. *)
Definition getBootcamps (dr : Driver) (db : list bootcamp) (q : query) : outcome :=
  match predicateOf q with
  | None => Threw SyntaxError
  | Some predicate =>
      match selectOf q with
      | inl e => Threw e
      | inr sel =>
          match sortOf q with
          | inl e => Threw e
          | inr srt =>
              let page := pageOf q in
              let limit := limitOf q in
              let total := totalOf dr db in
              let query_ := {| conditions := predicate; populated := "courses";
                               selected := sel; sorted := srt;
                               skipped := startIndex page limit; limited := limit |} in
              match exec dr db query_ with
              | None => Threw StoreError
              | Some bootcamps =>
                  Json 200 [("success", JBool true);
                            ("count", JNum (Z.of_nat (length bootcamps)));
                            ("pagination", JPagination (pagination page limit total));
                            ("data", JDocs bootcamps)]
              end
          end
      end
  end.

End ListEndpoint.

Import ListEndpoint.

(** ** The live handlers (lines 11-196) *)

Module Handlers.

(** [req.user], set by the route's authentication guard. *)
Record User : Type := { id : string; role : string }.

(** An uploaded file as the upload middleware presents it. *)
Record File : Type := { name : string; mimetype : string; size : Z }.

(** The parts of [req] the handlers read.  [userrole] is the property
    [req.userrole]; [files] is [req.files] ([None] when the request
    carries no upload), an object from form-field names to files. *)
Record request : Type := {
  params_id : string;
  req_user : User;
  userrole : option string;
  req_body : list (string * string);
  files : option (list (string * File));
  advancedResults : body
}.

(** What a run depends on besides the request and the collection: the
    process environment ([MAX_UPLOAD] as text and as the number it
    converts to, if any), the extension [path.parse(name).ext] of a file
    name, whether the store accepts a document, the identity it gives to
    a new one, and whether the file move fails. *)
Record env : Type := {
  MAX_UPLOAD : string;
  MAX_UPLOAD_number : option Z;
  FILE_UPLOAD_PATH : string;
  ext : string -> string;
  validates : list (string * string) -> bool;
  newId : string;
  mvFails : bool
}.

(** The calls a run makes, in order. *)
Inductive event : Type :=
| NewErrorResponse (e : ErrorResponse)
| CallNext (e : ErrorResponse)
| CallJson (status : nat) (b : body)
| CallMv (path : string)
| ConsoleError.

Record world : Type := { db : list bootcamp; trace : list event }.

(** How a block of statements completes: normally with a value, by a
    [return] out of the handler, or by a thrown exception. *)
Inductive completion (A : Type) : Type :=
| Normal (a : A)
| Returned
| Thrown (e : exn).
Arguments Normal {A} a.
Arguments Returned {A}.
Arguments Thrown {A} e.

Definition M (A : Type) : Type := world -> completion A * world.

Definition ret {A : Type} (a : A) : M A := fun w => (Normal a, w).

Definition bind {A B : Type} (m : M A) (k : A -> M B) : M B :=
  fun w =>
    match m w with
    | (Normal a, w') => k a w'
    | (Returned, w') => (Returned, w')
    | (Thrown e, w') => (Thrown e, w')
    end.

Notation "x <- m ;; k" := (bind m (fun x => k))
  (at level 61, m at next level, right associativity).
Notation "m ;; k" := (bind m (fun _ => k))
  (at level 61, right associativity).

Definition return_ {A : Type} : M A := fun w => (Returned, w).
Definition throw {A : Type} (e : exn) : M A := fun w => (Thrown e, w).

Definition emit (ev : event) : M unit :=
  fun w => (Normal tt, {| db := db w; trace := trace w ++ [ev] |}).

(** [new ErrorResponse(msg, code)]. *)
Definition newErrorResponse (msg : string) (code : nat) : M ErrorResponse :=
  let e := {| message := msg; statusCode := code |} in
  emit (NewErrorResponse e) ;; ret e.

(** [next(err)]. *)
Definition next (e : ErrorResponse) : M unit := emit (CallNext e).

(** [res.status(code).json(b)]. *)
Definition json (code : nat) (b : body) : M unit := emit (CallJson code b).

(** *** The model's methods.  Modelled from the spec: the store interface
    of [models/Bootcamp], over a collection kept as a list. *)

Definition hasId (i : string) (b : bootcamp) : bool := String.eqb (_id b) i.

(** [Bootcamp.findById(id)]; [None] is [null].  The photo upload passes
    [req.body] as a second argument, a projection; its requests carry no
    body fields, and the whole document is returned. *)
Definition findById (i : string) : M (option bootcamp) :=
  fun w => (Normal (find (hasId i) (db w)), w).

(** [Bootcamp.findOne({ user })]. *)
Definition findOneByUser (u : string) : M (option bootcamp) :=
  fun w => (Normal (find (fun b => String.eqb (user b) u) (db w)), w).

(** The document a body describes: [user] is the owner, every other
    property a field. *)
Definition applyBody (b : bootcamp) (bd : list (string * string)) : bootcamp :=
  {| _id := _id b;
     user := match getProp "user" bd with Some u => u | None => user b end;
     fields := fold_left (fun acc kv => setProp (fst kv) (snd kv) acc)
                         (deleteProp "user" bd) (fields b) |}.

(** [Bootcamp.create(body)]: a rejected document raises. *)
Definition create (e : env) (bd : list (string * string)) : M bootcamp :=
  fun w =>
    if validates e bd then
      let b := applyBody (Bootcamp (newId e) EmptyString []) bd in
      (Normal b, {| db := db w ++ [b]; trace := trace w |})
    else (Thrown StoreError, w).

(** [Bootcamp.findByIdAndUpdate(id, body, { new: true, runValidators })]:
    the updated document, or [null] when there is none. *)
Definition findByIdAndUpdate (e : env) (check : bool) (i : string)
  (bd : list (string * string)) : M (option bootcamp) :=
  fun w =>
    if negb check || validates e bd then
      (Normal (option_map (fun b => applyBody b bd) (find (hasId i) (db w))),
       {| db := map (fun b => if hasId i b then applyBody b bd else b) (db w);
          trace := trace w |})
    else (Thrown StoreError, w).

(** [bootcamp.remove()]; the handler does not wait for it, the model
    removes the document at once. *)
Definition remove (b : bootcamp) : M unit :=
  fun w => (Normal tt, {| db := filter (fun b' => negb (hasId (_id b) b')) (db w);
                          trace := trace w |}).

(** *** The handlers *)

(** [getBootcamps]: the body is what the list middleware left in
    [res.advancedResults]. *)
Definition getBootcamps (req : request) : M unit :=
  json 200 (advancedResults req).

Definition notFoundMsg (req : request) : string :=
  "Bootcamp not found with id of " ++ params_id req.

Definition getBootcamp (req : request) : M unit :=
  bootcamp <- findById (params_id req) ;;
  match bootcamp with
  | None =>
      e <- newErrorResponse (notFoundMsg req) 404 ;;
      next e ;; return_
  | Some b => json 200 [("success", JBool true); ("data", JDoc b)]
  end.

Definition createBootcamp (ev : env) (req : request) : M unit :=
  let bd := setProp "user" (id (req_user req)) (req_body req) in
  publishedBootcamp <- findOneByUser (id (req_user req)) ;;
  (match publishedBootcamp with
   | Some _ =>
       if negb (String.eqb (role (req_user req)) "admin") then
         e <- newErrorResponse
                ("The user with ID " ++ id (req_user req)
                 ++ " has already published a bootcamp") 400 ;;
         next e ;; return_
       else ret tt
   | None => ret tt
   end) ;;
  bootcamp <- create ev bd ;;
  json 201 [("success", JBool true); ("data", JDoc bootcamp)].

(** [a !== b] on an optional string against a string. *)
Definition differs (a : option string) (b : string) : bool :=
  match a with
  | Some a => negb (String.eqb a b)
  | None => true
  end.

(** A document or [null] as a value of a body. *)
Definition docOrNull (b : option bootcamp) : jv :=
  match b with
  | Some b => JDoc b
  | None => JNull
  end.

Definition updateBootcamp (ev : env) (req : request) : M unit :=
  bootcamp <- findById (params_id req) ;;
  match bootcamp with
  | None =>
      e <- newErrorResponse (notFoundMsg req) 404 ;;
      next e ;; return_
  | Some b =>
      (if negb (String.eqb (user b) (id (req_user req)))
          && differs (userrole req) "admin"
       then
         e <- newErrorResponse
                ("User " ++ params_id req
                 ++ " is not authorized to update this bootcamp") 401 ;;
         next e ;; return_
       else ret tt) ;;
      bootcamp' <- findByIdAndUpdate ev true (params_id req) (req_body req) ;;
      json 200 [("success", JBool true); ("data", docOrNull bootcamp')]
  end.

Definition deleteBootcamp (req : request) : M unit :=
  bootcamp <- findById (params_id req) ;;
  match bootcamp with
  | None =>
      e <- newErrorResponse (notFoundMsg req) 404 ;;
      next e ;; return_
  | Some b =>
      (if negb (String.eqb (user b) (id (req_user req)))
          && differs (Some (role (req_user req))) "admin"
       then
         e <- newErrorResponse
                ("User " ++ params_id req
                 ++ " is not authorized to delete this bootcamp") 401 ;;
         next e ;; return_
       else ret tt) ;;
      remove b ;;
      json 200 [("success", JBool true);
                ("message", JStr "The following document has been deleted!");
                ("bootcamp", JDoc b)]
  end.

(** [file.size > process.env.MAX_UPLOAD]: false when the variable does
    not convert to a number. *)
Definition exceeds (sz : Z) (ev : env) : bool :=
  match MAX_UPLOAD_number ev with
  | Some m => (m <? sz)%Z
  | None => false
  end.

Definition bootcampPhotoUpload (ev : env) (req : request) : M unit :=
  bootcamp <- findById (params_id req) ;;
  (match bootcamp with
   | None => _ <- newErrorResponse (notFoundMsg req) 404 ;; ret tt
   | Some _ => ret tt
   end) ;;
  b <- match bootcamp with
       | None => throw (TypeError "Cannot read property 'user' of null")
       | Some b => ret b
       end ;;
  (if negb (String.eqb (user b) (id (req_user req)))
      && differs (Some (role (req_user req))) "admin"
   then
     e <- newErrorResponse
            ("User " ++ params_id req
             ++ " is not authorized to update this bootcamp") 401 ;;
     next e ;; return_
   else ret tt) ;;
  fs <- match files req with
        | None =>
            e <- newErrorResponse "Please upload a file" 400 ;;
            next e ;; return_
        | Some fs => ret fs
        end ;;
  file <- match getProp "file" fs with
          | None => throw (TypeError "Cannot read property 'mimetype' of undefined")
          | Some f => ret f
          end ;;
  (if negb (startsWith (mimetype file) "image") then
     e <- newErrorResponse "Please upload an image file" 400 ;;
     next e ;; return_
   else ret tt) ;;
  (if exceeds (size file) ev then
     e <- newErrorResponse
            ("Please upload an image less than " ++ MAX_UPLOAD ev) 400 ;;
     next e ;; return_
   else ret tt) ;;
  let name' := "photo_" ++ _id b ++ ext ev (name file) in
  emit (CallMv (FILE_UPLOAD_PATH ev ++ "/" ++ name')) ;;
  (if mvFails ev then
     emit ConsoleError ;;
     e <- newErrorResponse "Problem with file upload!!" 500 ;;
     next e ;; return_
   else ret tt) ;;
  findByIdAndUpdate ev false (params_id req) [("photo", name')] ;;
  json 200 [("succes", JBool true); ("data", JStr name')].

(** One request: the handler runs on the collection with an empty trace. *)
Definition run (h : M unit) (d : list bootcamp) : completion unit * world :=
  h {| db := d; trace := [] |}.

End Handlers.

Import Handlers.

(** ** The radius search (lines 117-141) *)

Module Radius.

(** What the radius search depends on besides the collection: the type of
    JavaScript numbers, the geocoder's answer for a zip code (a list of
    locations, each a latitude and a longitude), the quotient
    [distance / 3963] of the distance parameter, and the store's test of
    [{ $geoWithin: { $centerSphere: [[lng, lat], radius] } }] on the
    location of a record. *)
Record Geo : Type := {
  num : Type;
  geocode : string -> list (num * num);
  over3963 : string -> num;
  centerSphere : num -> num -> num -> bootcamp -> bool
}.

(** [Bootcamp.find(filter)], awaited as it is: every matching record. *)
Definition findWhere (f : bootcamp -> bool) : M (list bootcamp) :=
  fun w => (Normal (filter f (db w)), w).

Definition getBootcampsInRadius (g : Geo) (zipcode distance : string) : M unit :=
  match geocode g zipcode with
  | [] => throw (TypeError "Cannot read property 'latitude' of undefined")
  | (lat, lng) :: _ =>
      let radius := over3963 g distance in
      bootcamps <- findWhere (centerSphere g lng lat radius) ;;
      json 200 [("success", JBool true);
                ("count", JNum (Z.of_nat (length bootcamps)));
                ("data", JDocs bootcamps)]
  end.

End Radius.

Import Radius.

(** * Vocabulary of the statements *)

(** ** Paging and field selection *)

(** The text [parseInt] reads digits from: the value as a string, without
    leading white space and without one sign. *)
Definition numeral (v : option qval) : string :=
  snd (signed (trimStart (ToStringOpt v))).

Definition headIsDigit (s : string) : bool :=
  match s with
  | String c _ => match digitVal c with Some _ => true | None => false end
  | EmptyString => false
  end.

(** A numeral of [n] nines. *)
Fixpoint nines (n : nat) : string :=
  match n with
  | O => EmptyString
  | S k => String "9" (nines k)
  end.

Definition commaToSpace (c : ascii) : ascii :=
  if Ascii.eqb c "," then " "%char else c.

Fixpoint mapChars (f : ascii -> ascii) (s : string) : string :=
  match s with
  | EmptyString => EmptyString
  | String c s' => String (f c) (mapChars f s')
  end.

Fixpoint hasChar (c : ascii) (s : string) : bool :=
  match s with
  | EmptyString => false
  | String c' s' => Ascii.eqb c' c || hasChar c s'
  end.

(** ** Outcomes of the handlers *)

Definition unauthorized (verb : string) (req : request) : ErrorResponse :=
  {| message := "User " ++ params_id req ++ " is not authorized to " ++ verb
                ++ " this bootcamp";
     statusCode := 401 |}.

Definition rejected (d : list bootcamp) (e : ErrorResponse) : completion unit * world :=
  (Returned, {| db := d; trace := [NewErrorResponse e; CallNext e] |}).

Definition invalidImage : ErrorResponse :=
  {| message := "Please upload an image file"; statusCode := 400 |}.

Definition isMv (e : event) : bool :=
  match e with
  | CallMv _ => true
  | _ => false
  end.

Definition isJson (e : event) : bool :=
  match e with
  | CallJson _ _ => true
  | _ => false
  end.

(** Whether the requester passes the ownership gate on [b]. *)
Definition mayChange (req : request) (b : bootcamp) : bool :=
  String.eqb (user b) (id (req_user req)) || String.eqb (role (req_user req)) "admin".

Definition alreadyPublished (req : request) : ErrorResponse :=
  {| message := "The user with ID " ++ id (req_user req)
                ++ " has already published a bootcamp";
     statusCode := 400 |}.

(** The document [createBootcamp] stores for a request. *)
Definition created (ev : env) (req : request) : bootcamp :=
  applyBody (Bootcamp (newId ev) EmptyString [])
            (setProp "user" (id (req_user req)) (req_body req)).

(** A creation by an admin that the store accepts. *)
Definition adminJob (j : env * request) : Prop :=
  String.eqb (role (req_user (snd j))) "admin" = true
  /\ validates (fst j) (setProp "user" (id (req_user (snd j))) (req_body (snd j))) = true.

(** Creations run one after the other: how each completes, and the
    collection at the end. *)
Fixpoint createAll (jobs : list (env * request)) (d : list bootcamp)
  : list (completion unit) * list bootcamp :=
  match jobs with
  | [] => ([], d)
  | j :: jobs' =>
      let r := run (createBootcamp (fst j) (snd j)) d in
      let rs := createAll jobs' (db (snd r)) in
      (fst r :: fst rs, snd rs)
  end.

(** ** Words and texts without escapes *)

(** A string is a word when all its characters are word characters. *)
Fixpoint allWord (s : string) : bool :=
  match s with
  | EmptyString => true
  | String c s' => isWordChar c && allWord s'
  end.

(** The length of the run of word characters a text starts with. *)
Fixpoint wordLen (s : string) : nat :=
  match s with
  | String c s' => if isWordChar c then S (wordLen s') else 0
  | EmptyString => 0
  end.

(** The test an alternative undergoes at a position. *)
Definition altMatches (s alt : string) : bool :=
  String.prefix alt s && wordBoundary true (dropChars (String.length alt) s).

(** A character [JSON.stringify] copies as it is: neither the quote, the
    backslash nor a control character. *)
Definition plainChar (c : ascii) : bool :=
  negb (Ascii.eqb c dquote) && negb (Ascii.eqb c backslash)
  && negb (nat_of_ascii c <? 32)%nat.

Fixpoint plain (s : string) : bool :=
  match s with
  | EmptyString => true
  | String c s' => plainChar c && plain s'
  end.

(** A query value all of whose keys and strings are plain. *)
Fixpoint plainVal (v : qval) : bool :=
  match v with
  | QStr s => plain s
  | QArr items => forallb plainVal items
  | QObj props => forallb (fun kv => plain (fst kv) && plainVal (snd kv)) props
  end.

(** ** The rewrite, read on the parsed structure *)

(** [g] applied to every key and every string of a value. *)
Fixpoint mapStrings (g : string -> string) (v : qval) : qval :=
  match v with
  | QStr s => QStr (g s)
  | QArr items => QArr (map (mapStrings g) items)
  | QObj props => QObj (map (fun kv => (g (fst kv), mapStrings g (snd kv))) props)
  end.

(** The value [JSON.parse] builds from the serialisation of [v]: every
    object is filled by successive assignments, so that of two properties
    with the same key the later value stays, at the earlier place. *)
Fixpoint reparsed (v : qval) : qval :=
  match v with
  | QStr s => QStr s
  | QArr items => QArr (map reparsed items)
  | QObj props =>
      QObj (fold_left (fun acc kv => setProp (fst kv) (reparsed (snd kv)) acc) props [])
  end.

(** The recursion depth the parser needs on the serialisation of [v]. *)
Fixpoint weight (v : qval) : nat :=
  match v with
  | QStr _ => 1
  | QArr items => S (list_sum (map (fun x => S (weight x)) items))
  | QObj props => S (list_sum (map (fun kv => S (weight (snd kv))) props))
  end.

Definition member (kv : string * qval) : string :=
  quote (fst kv) ++ ":" ++ stringify (snd kv).

(** What [parseValue] is expected to do on the serialisation of [v]. *)
Definition parsesBack (v : qval) : Prop :=
  plainVal v = true ->
  forall fuel rest, weight v <= fuel ->
    parseValue fuel (stringify v ++ rest) = Some (reparsed v, rest).

(** ** Concrete requests *)

(** A small store used to run the handlers on concrete requests: a
    predicate tree of literal fields is an equality test on each of them,
    and a query is answered by skipping and truncating the matching
    records. *)
Module Sample.

Definition fieldIs (d : bootcamp) (kv : string * qval) : bool :=
  match snd kv with
  | QStr v =>
      match getProp (fst kv) (fields d) with
      | Some w => String.eqb v w
      | None => false
      end
  | _ => false
  end.

Definition driver : Driver := {|
  matches := fun p d =>
    match p with
    | QObj props => forallb (fieldIs d) props
    | _ => false
    end;
  arrange := fun q l =>
    match skipped q, limited q with
    | Int s, Int n =>
        if (s <? 0)%Z then None
        else Some (firstn (Z.to_nat n) (skipn (Z.to_nat s) l))
    | _, _ => None
    end
|}.

Definition db : list bootcamp :=
  [ Bootcamp "b1" "u1" [("name", "Devworks"); ("housing", "true")];
    Bootcamp "b2" "u2" [("name", "ModernTech"); ("housing", "false")];
    Bootcamp "b3" "u3" [("name", "Codemasters"); ("housing", "true")] ].

End Sample.

Module Scenario.

Fixpoint dropWhile {A : Type} (f : A -> bool) (l : list A) : list A :=
  match l with
  | x :: l' => if f x then dropWhile f l' else l
  | [] => []
  end.

Fixpoint takeWhile {A : Type} (f : A -> bool) (l : list A) : list A :=
  match l with
  | x :: l' => if f x then x :: takeWhile f l' else []
  | [] => []
  end.

Definition isSlash (c : ascii) : bool := Ascii.eqb c "/".
Definition isDot (c : ascii) : bool := Ascii.eqb c ".".

(** The extension of a POSIX path as [path.parse] gives it: the part of
    the last component from its last dot on, empty when that component
    has no dot, starts with its only dot, or is [..].  ([path.parse] does
    not look at the first character of an absolute path, so it does not
    recognise [..] right under the root and gives it the extension [.].) *)
Definition posixExt (p : string) : string :=
  let trimmed := dropWhile isSlash (rev (list_ascii_of_string p)) in
  let baseRev := takeWhile (fun c => negb (isSlash c)) trimmed in
  let underRoot :=
    match dropWhile (fun c => negb (isSlash c)) trimmed with
    | [_] => true
    | _ => false
    end in
  let afterRev := takeWhile (fun c => negb (isDot c)) baseRev in
  match dropWhile (fun c => negb (isDot c)) baseRev with
  | [] => EmptyString
  | _ :: beforeRev =>
      match beforeRev, afterRev with
      | [], _ => EmptyString
      | [c], [] => if (isDot c && negb underRoot)%bool then EmptyString else "."
      | _, _ => String "." (string_of_list_ascii (rev afterRev))
      end
  end.

Definition ev : env := {|
  MAX_UPLOAD := "1000000";
  MAX_UPLOAD_number := Some 1000000%Z;
  FILE_UPLOAD_PATH := "./public/uploads";
  ext := posixExt;
  validates := fun _ => true;
  newId := "b4";
  mvFails := false
|}.

(** A request on bootcamp [i] by user [u] with role [r], with a body. *)
Definition request_ (i u r : string) : request := {|
  params_id := i;
  req_user := {| id := u; role := r |};
  userrole := None;
  req_body := [("name", "Devcentral")];
  files := None;
  advancedResults := []
|}.

(** The upload of file [f] for bootcamp [i] by user [u] with role [r]. *)
Definition upload_ (i u r : string) (f : File) : request := {|
  params_id := i;
  req_user := {| id := u; role := r |};
  userrole := None;
  req_body := [];
  files := Some [("file", f)];
  advancedResults := []
|}.

Definition textFile : File :=
  {| name := "notes.txt"; mimetype := "text/plain"; size := 120 |}.

Definition photoFile : File :=
  {| name := "front.jpg"; mimetype := "image/jpeg"; size := 2048 |}.

End Scenario.

(** * Vocabulary of the further properties *)

(** The text [s] without the occurrences of [c]. *)
Fixpoint withoutChar (c : ascii) (s : string) : string :=
  match s with
  | EmptyString => EmptyString
  | String c' s' =>
      if Ascii.eqb c' c then withoutChar c s' else String c' (withoutChar c s')
  end.

(** A word that is none of the five operator words. *)
Definition quiet (s : string) : bool :=
  allWord s && negb (existsb (fun alt => String.eqb alt s) operators).

(** A filter parameter [f=v] whose name and value are such words. *)
Definition literalField (kv : string * qval) : bool :=
  quiet (fst kv) && match snd kv with QStr v => quiet v | _ => false end.



(** The error for a bootcamp that does not exist. *)
Definition notFound (req : request) : ErrorResponse :=
  {| message := notFoundMsg req; statusCode := 404 |}.

(** The errors of the photo upload. *)
Definition noFile : ErrorResponse :=
  {| message := "Please upload a file"; statusCode := 400 |}.

Definition tooLarge (ev : env) : ErrorResponse :=
  {| message := "Please upload an image less than " ++ MAX_UPLOAD ev;
     statusCode := 400 |}.

Definition uploadFailed : ErrorResponse :=
  {| message := "Problem with file upload!!"; statusCode := 500 |}.

(** The name the photo upload stores a file under, and where it moves it. *)
Definition photoName (ev : env) (b : bootcamp) (file : File) : string :=
  "photo_" ++ _id b ++ ext ev (name file).

Definition photoPath (ev : env) (b : bootcamp) (file : File) : string :=
  FILE_UPLOAD_PATH ev ++ "/" ++ photoName ev b file.

(** A geocoder that knows one zip code, with integers for numbers and a
    sphere that holds the records flagged with housing. *)
Definition sampleGeo : Geo := {|
  num := Z;
  geocode := fun zip => if String.eqb zip "02118" then [(42, -71)%Z] else [];
  over3963 := fun _ => 0%Z;
  centerSphere := fun _ _ _ b =>
    match getProp "housing" (fields b) with
    | Some h => String.eqb h "true"
    | None => false
    end
|}.

(** * Properties *)

(** ** Numbers *)

Lemma pow53_lt_pow1024 : (2 ^ 53 < 2 ^ 1024)%Z.
Proof. apply Z.pow_lt_mono_r; lia. Qed.

(** Rounding leaves the integers below 2^53 alone and keeps the others at
    2^53 or above. *)
Lemma roundMag_small (m : Z) : (m < 2 ^ 53)%Z -> roundMag m = m.
Proof.
  intros H. unfold roundMag. destruct (Z.ltb_spec m (2 ^ 53)); [reflexivity|lia].
Qed.

Lemma roundMag_large (m : Z) : (2 ^ 53 <= m)%Z -> (2 ^ 53 <= roundMag m)%Z.
Proof.
  intros H. unfold roundMag. destruct (Z.ltb_spec m (2 ^ 53)); [lia|].
  assert (Hm : (0 < m)%Z) by (pose proof (Z.pow_pos_nonneg 2 53); lia).
  assert (Hl : (53 <= Z.log2 m)%Z).
  { rewrite <- (Z.log2_pow2 53) by lia. now apply Z.log2_le_mono. }
  destruct (Z.log2_spec m Hm) as [Hlo _].
  set (e := (Z.log2 m - 52)%Z) in *.
  assert (He : (0 < e)%Z) by (unfold e; lia).
  assert (Hpe : (0 < 2 ^ e)%Z) by (apply Z.pow_pos_nonneg; lia).
  assert (Hsplit : (2 ^ Z.log2 m = 2 ^ 52 * 2 ^ e)%Z).
  { rewrite <- Z.pow_add_r by lia. f_equal. unfold e. lia. }
  assert (Hq : (2 ^ 52 <= m / 2 ^ e)%Z).
  { apply Z.div_le_lower_bound; [exact Hpe|]. lia. }
  assert (Hpow : (2 ^ 53 <= 2 ^ 52 * 2 ^ e)%Z).
  { rewrite <- Hsplit. apply Z.pow_le_mono_r; lia. }
  cbv zeta.
  match goal with
  | |- context [if ?c then _ else _] => destruct c
  end; nia.
Qed.

Lemma sgn_abs_mul (z : Z) : (Z.sgn z * Z.abs z = z)%Z.
Proof. destruct z; reflexivity. Qed.

(** Every integer of magnitude at most 2^53 is a number. *)
Lemma ofZ_exact (z : Z) : (Z.abs z <= 2 ^ 53)%Z -> ofZ z = Int z.
Proof.
  intros H. destruct (Z.eq_dec (Z.abs z) (2 ^ 53)) as [E|E].
  - destruct z as [|p|p]; cbn [Z.abs] in E.
    + discriminate E.
    + rewrite E. reflexivity.
    + assert (Hp : Z.neg p = (- 2 ^ 53)%Z) by lia. rewrite Hp. reflexivity.
  - unfold ofZ. rewrite roundMag_small by lia.
    pose proof pow53_lt_pow1024.
    destruct (Z.leb_spec (2 ^ 1024) (Z.abs z)); [lia|].
    now rewrite sgn_abs_mul.
Qed.

(** The number nearest to a positive integer is positive; it is the
    integer itself below 2^53 and at least 2^53 otherwise. *)
Lemma ofZ_pos (z : Z) :
  (0 < z)%Z ->
  (ofZ z = Inf false /\ (2 ^ 53 <= z)%Z)
  \/ exists m, ofZ z = Int m /\ (0 < m)%Z
               /\ ((z < 2 ^ 53)%Z -> m = z) /\ ((2 ^ 53 <= z)%Z -> (2 ^ 53 <= m)%Z).
Proof.
  intros H. unfold ofZ.
  assert (Ha : Z.abs z = z) by lia. rewrite Ha.
  assert (Hs : Z.sgn z = 1%Z) by lia. rewrite Hs.
  assert (Hn : (z <? 0)%Z = false) by (apply Z.ltb_ge; lia). rewrite Hn.
  pose proof pow53_lt_pow1024 as Hpow.
  destruct (Z_lt_le_dec z (2 ^ 53)) as [L|L].
  - rewrite (roundMag_small z L).
    destruct (Z.leb_spec (2 ^ 1024) z); [lia|].
    right. exists (1 * z)%Z. repeat split; lia.
  - pose proof (roundMag_large z L).
    destruct (2 ^ 1024 <=? roundMag z)%Z; [left; now split|right].
    exists (1 * roundMag z)%Z. repeat split; lia.
Qed.

(** Likewise for a negative integer. *)
Lemma ofZ_neg (z : Z) :
  (z < 0)%Z -> ofZ z = Inf true \/ exists m, ofZ z = Int m /\ (m < 0)%Z.
Proof.
  intros H. unfold ofZ.
  assert (Hs : Z.sgn z = (-1)%Z) by lia. rewrite Hs.
  assert (Hn : (z <? 0)%Z = true) by (apply Z.ltb_lt; lia). rewrite Hn.
  destruct (2 ^ 1024 <=? roundMag (Z.abs z))%Z; [now left|right].
  eexists. split; [reflexivity|].
  destruct (Z_lt_le_dec (Z.abs z) (2 ^ 53)) as [L|L].
  - rewrite (roundMag_small _ L). lia.
  - pose proof (roundMag_large _ L). lia.
Qed.

(** A non-zero integer never rounds to a zero, and rounding never gives
    [NaN]. *)
Lemma ofZ_truthy (z : Z) :
  z <> 0%Z -> (isNaN (ofZ z) || isZero (ofZ z))%bool = false.
Proof.
  intros H. destruct (Z_lt_le_dec z 0) as [L|L].
  - destruct (ofZ_neg z L) as [->|(m & -> & Hm)]; [reflexivity|].
    cbn. apply Z.eqb_neq. lia.
  - destruct (ofZ_pos z ltac:(lia)) as [[-> _]|(m & -> & Hm & _)]; [reflexivity|].
    cbn. apply Z.eqb_neq. lia.
Qed.

(** The numbers that are at least 1, and those above 0. *)
Lemma le_one_cases (n : number) :
  le (Int 1) n = true <-> n = Inf false \/ exists z, n = Int z /\ (1 <= z)%Z.
Proof.
  destruct n as [|s| |z]; cbn.
  - split; [discriminate|]. intros [H|(z & H & _)]; discriminate H.
  - destruct s; cbn; split; auto; try discriminate.
    intros [H|(z & H & _)]; discriminate H.
  - split; [discriminate|]. intros [H|(z & H & _)]; discriminate H.
  - rewrite negb_true_iff, Z.ltb_ge. split.
    + intros H. right. now exists z.
    + intros [H|(z' & H & H')]; [discriminate|]. inversion H. lia.
Qed.

Lemma lt_zero_cases (n : number) :
  lt (Int 0) n = true <-> n = Inf false \/ exists z, n = Int z /\ (1 <= z)%Z.
Proof.
  destruct n as [|s| |z]; cbn.
  - split; [discriminate|]. intros [H|(z & H & _)]; discriminate H.
  - destruct s; cbn; split; auto; try discriminate.
    intros [H|(z & H & _)]; discriminate H.
  - split; [discriminate|]. intros [H|(z & H & _)]; discriminate H.
  - rewrite Z.ltb_lt. split.
    + intros H. right. exists z. split; [reflexivity|lia].
    + intros [H|(z' & H & H')]; [discriminate|]. inversion H. lia.
Qed.

(** Against a count of at most 2^53, comparing the rounded integer is
    comparing the integer. *)
Lemma lt_ofZ_count (x t : Z) :
  (0 < x)%Z -> (0 <= t <= 2 ^ 53)%Z -> lt (ofZ x) (ofZ t) = (x <? t)%Z.
Proof.
  intros Hx Ht. rewrite (ofZ_exact t) by lia.
  destruct (ofZ_pos x Hx) as [[-> Hb]|(m & -> & Hm & Hs & Hb)].
  - cbn. symmetry. apply Z.ltb_ge. lia.
  - cbn. destruct (Z_lt_le_dec x (2 ^ 53)) as [L|L].
    + now rewrite (Hs L).
    + specialize (Hb L). transitivity false; [apply Z.ltb_ge|symmetry; apply Z.ltb_ge]; lia.
Qed.

(** The product of two numbers that are at least 1. *)
Lemma mul_ints (p l : Z) :
  (1 <= p)%Z -> (1 <= l)%Z -> mul (Int p) (Int l) = ofZ (p * l).
Proof.
  intros Hp Hl. unfold mul. cbn [isNaN isInf isZero orb value].
  assert (E1 : (p =? 0)%Z = false) by (apply Z.eqb_neq; lia).
  assert (E2 : (l =? 0)%Z = false) by (apply Z.eqb_neq; lia).
  now rewrite E1, E2.
Qed.

Lemma sub_one (p : Z) : sub (Int p) (Int 1) = ofZ (p - 1).
Proof. reflexivity. Qed.

Lemma add_one (p : Z) : add (Int p) (Int 1) = ofZ (p + 1).
Proof. reflexivity. Qed.

(** The product of a positive number with a number that is at least 1 is
    positive. *)
Lemma mul_pos (a b : number) :
  lt (Int 0) a = true -> le (Int 1) b = true -> lt (Int 0) (mul a b) = true.
Proof.
  intros Ha Hb. apply lt_zero_cases in Ha. apply le_one_cases in Hb.
  destruct Ha as [->|(x & -> & Hx)]; destruct Hb as [->|(y & -> & Hy)].
  - reflexivity.
  - unfold mul. cbn [isNaN isInf isZero isNegative orb xorb].
    assert (E : (y =? 0)%Z = false) by (apply Z.eqb_neq; lia).
    assert (F : (y <? 0)%Z = false) by (apply Z.ltb_ge; lia).
    now rewrite E, F.
  - unfold mul. cbn [isNaN isInf isZero isNegative orb xorb].
    assert (E : (x =? 0)%Z = false) by (apply Z.eqb_neq; lia).
    assert (F : (x <? 0)%Z = false) by (apply Z.ltb_ge; lia).
    now rewrite E, F.
  - rewrite mul_ints by lia. apply lt_zero_cases.
    destruct (ofZ_pos (x * y) ltac:(nia)) as [[-> _]|(m & -> & Hm & _)]; [now left|].
    right. exists m. split; [reflexivity|lia].
Qed.


(** The skip is [NaN] only for page 1 with an infinite limit, and is not
    negative, when the page and the limit are positive. *)
Lemma startIndex_of_positive (page limit : number) :
  lt (Int 0) page = true -> lt (Int 0) limit = true ->
  lt (startIndex page limit) (Int 0) = false
  /\ (isNaN (startIndex page limit) = true <-> page = Int 1 /\ limit = Inf false).
Proof.
  intros Hp Hl.
  assert (Hl1 : le (Int 1) limit = true).
  { apply le_one_cases. now apply lt_zero_cases. }
  apply lt_zero_cases in Hp. unfold startIndex.
  destruct Hp as [->|(p & -> & Hp1)].
  - change (sub (Inf false) (Int 1)) with (Inf false).
    pose proof (mul_pos (Inf false) limit eq_refl Hl1) as H.
    apply lt_zero_cases in H. destruct H as [->|(z & -> & Hz)].
    + split; [reflexivity|]. split; [discriminate|]. intros [H _]. discriminate H.
    + split; [cbn; apply Z.ltb_ge; lia|].
      split; [discriminate|]. intros [H _]. discriminate H.
  - rewrite sub_one. destruct (Z.eq_dec p 1) as [->|Hne].
    + change (ofZ (1 - 1)) with (Int 0).
      apply lt_zero_cases in Hl. destruct Hl as [->|(l & -> & Hl0)].
      * split; [reflexivity|]. split; [now split|reflexivity].
      * unfold mul. cbn [isNaN isInf isZero isNegative orb xorb Z.eqb].
        assert (F : (l <? 0)%Z = false) by (apply Z.ltb_ge; lia).
        rewrite F. cbn. split; [reflexivity|].
        split; [discriminate|]. intros [_ H]. discriminate H.
    + assert (Hpos : lt (Int 0) (ofZ (p - 1)) = true).
      { apply lt_zero_cases.
        destruct (ofZ_pos (p - 1) ltac:(lia)) as [[-> _]|(m & -> & Hm & _)]; [now left|].
        right. exists m. split; [reflexivity|lia]. }
      pose proof (mul_pos _ _ Hpos Hl1) as H.
      apply lt_zero_cases in H. destruct H as [->|(z & -> & Hz)].
      * split; [reflexivity|]. split; [discriminate|].
        intros [H _]. inversion H. lia.
      * split; [cbn; apply Z.ltb_ge; lia|].
        split; [discriminate|]. intros [H _]. inversion H. lia.
Qed.

(** ** Pagination *)

Lemma pagination_next_field (page limit : number) (total : Z) :
  getProp "next" (pagination page limit total)
  = if lt (mul page limit) (ofZ total)
    then Some (Window (add page (Int 1)) limit) else None.
Proof.
  unfold pagination, endIndex.
  destruct (lt (mul page limit) (ofZ total));
    destruct (lt (Int 0) (startIndex page limit)); reflexivity.
Qed.

Lemma pagination_prev_field (page limit : number) (total : Z) :
  getProp "prev" (pagination page limit total)
  = if lt (Int 0) (startIndex page limit)
    then Some (Window (sub page (Int 1)) limit) else None.
Proof.
  unfold pagination, endIndex.
  destruct (lt (mul page limit) (ofZ total));
    destruct (lt (Int 0) (startIndex page limit)); reflexivity.
Qed.

(** Whenever the list endpoint answers, its body carries the pagination
    object built from the parsed page and limit and from the count of the
    whole collection. *)
Lemma getBootcamps_body (dr : Driver) (db : list bootcamp) (q : query)
  (status : nat) (b : body) :
  ListEndpoint.getBootcamps dr db q = Json status b ->
  status = 200
  /\ getProp "success" b = Some (JBool true)
  /\ getProp "pagination" b
     = Some (JPagination (pagination (pageOf q) (limitOf q) (totalOf dr db))).
Proof.
  unfold ListEndpoint.getBootcamps.
  destruct (predicateOf q); [|discriminate].
  destruct (selectOf q); [discriminate|].
  destruct (sortOf q); [discriminate|].
  destruct (exec dr db _); [|discriminate].
  intros H. inversion H. subst. repeat split.
Qed.



(** ** Parsing of [page] and [limit] *)

Lemma digitsPrefix_started (s : string) (a : Z) :
  exists z, digitsPrefix s (Some a) = Some z.
Proof.
  revert a. induction s as [|c s IH]; intros a; simpl.
  - now exists a.
  - destruct (digitVal c); [apply IH | now exists a].
Qed.

Lemma ofZ_not_nan (z : Z) : isNaN (ofZ z) = false.
Proof. unfold ofZ. now destruct (2 ^ 1024 <=? roundMag (Z.abs z))%Z. Qed.

(** [parseInt] yields [NaN] exactly on a text with no leading digit. *)
Lemma parseInt10_nan_iff (v : option qval) :
  parseInt10 v = NaN <-> headIsDigit (numeral v) = false.
Proof.
  unfold parseInt10, numeral.
  assert (G : forall s sg, match digitsPrefix s None with
                           | None => NaN
                           | Some n => if (n =? 0)%Z then zero (sg <? 0)%Z
                                       else ofZ (sg * n)
                           end = NaN <-> headIsDigit s = false).
  { intros s sg. destruct s as [|c s]; simpl; [tauto|].
    destruct (digitVal c) as [d|]; [|tauto].
    match goal with
    | |- context [digitsPrefix s (Some ?a)] =>
        destruct (digitsPrefix_started s a) as [z ->]
    end.
    split; [|discriminate]. intros H. exfalso.
    destruct (z =? 0)%Z.
    - destruct (sg <? 0)%Z; discriminate H.
    - pose proof (ofZ_not_nan (sg * z)) as N. rewrite H in N. discriminate N. }
  destruct (signed (trimStart (ToStringOpt v))) as [sg s]. apply G.
Qed.

(** C2, as the code has it.  The defaults 1 and 25 replace a parse that
    is [NaN] or a zero and nothing else: a negative numeral is kept.  So
    [page=abc] gives page 1 and [limit=-5] gives limit -5.  When the page
    and the limit obtained are positive the skip [(page - 1) * limit] is
    not negative; it is then a number, except that page 1 with a limit
    too long for a double (an infinity) gives [0 * Infinity], [NaN]. *)
Theorem paging_defaults_on_nan_or_zero (q : query) :
  (headIsDigit (numeral (getProp "page" q)) = false -> pageOf q = Int 1)
  /\ (headIsDigit (numeral (getProp "limit" q)) = false -> limitOf q = Int 25)
  /\ (isZero (parseInt10 (getProp "page" q)) = true -> pageOf q = Int 1)
  /\ (isZero (parseInt10 (getProp "limit" q)) = true -> limitOf q = Int 25)
  /\ ((isNaN (parseInt10 (getProp "page" q))
       || isZero (parseInt10 (getProp "page" q)))%bool = false ->
      pageOf q = parseInt10 (getProp "page" q))
  /\ ((isNaN (parseInt10 (getProp "limit" q))
       || isZero (parseInt10 (getProp "limit" q)))%bool = false ->
      limitOf q = parseInt10 (getProp "limit" q))
  /\ pageOf [("page", QStr "abc")] = Int 1
  /\ limitOf [("limit", QStr "-5")] = Int (-5)
  /\ (lt (Int 0) (pageOf q) = true -> lt (Int 0) (limitOf q) = true ->
      lt (startIndex (pageOf q) (limitOf q)) (Int 0) = false
      /\ (isNaN (startIndex (pageOf q) (limitOf q)) = true
          <-> pageOf q = Int 1 /\ limitOf q = Inf false)).
Proof.
  split; [|split; [|split; [|split; [|split; [|split; [|split; [|split]]]]]]].
  - intros H. apply parseInt10_nan_iff in H. unfold pageOf. now rewrite H.
  - intros H. apply parseInt10_nan_iff in H. unfold limitOf. now rewrite H.
  - intros H. unfold pageOf, orDefault. rewrite H. now rewrite orb_true_r.
  - intros H. unfold limitOf, orDefault. rewrite H. now rewrite orb_true_r.
  - intros H. unfold pageOf, orDefault. now rewrite H.
  - intros H. unfold limitOf, orDefault. now rewrite H.
  - reflexivity.
  - reflexivity.
  - apply startIndex_of_positive.
Qed.

Lemma paging_defaults_on_nan_or_zero_witness :
  let q := [("page", QStr "3"); ("limit", QStr " +10 per page")] in
  (pageOf q = Int 3 /\ limitOf q = Int 10)
  /\ startIndex (pageOf q) (limitOf q) = Int 20
  /\ lt (startIndex (pageOf q) (limitOf q)) (Int 0) = false.
Proof.
  intros q. split; [split; reflexivity|]. split; [reflexivity|].
  apply (paging_defaults_on_nan_or_zero q); reflexivity.
Defined.

(** C2 as stated fails: [page=abc&limit=-5] is parsed to (1, -5), not to
    (1, 25), and [page=3&limit=-5] gives a negative skip. *)
Lemma paging_negative_limit_kept :
  let q := [("page", QStr "abc"); ("limit", QStr "-5")] in
  let q' := [("page", QStr "3"); ("limit", QStr "-5")] in
  (pageOf q, limitOf q) = (Int 1, Int (-5))
  /\ (pageOf q, limitOf q) <> (Int 1, Int 25)
  /\ startIndex (pageOf q') (limitOf q') = Int (-10)
  /\ lt (startIndex (pageOf q') (limitOf q')) (Int 0) = true.
Proof.
  cbv zeta. split; [reflexivity|]. split; [|split; reflexivity].
  intros H. vm_compute in H. discriminate.
Qed.

(** Numerals beyond 2^53 are read as the doubles nearest to them:
    [limit=9007199254740993] asks for 9007199254740992 records; on page
    99999999999999999999 the page is 1e20, the previous page is that page
    again and the skip is 1e20 times the limit; a limit of 400 nines is
    infinite, so that page 1 gives the skip [0 * Infinity] and no [prev],
    and no page has a [next]. *)
Example paging_rounds_large_numerals :
  let big := [("page", QStr "99999999999999999999"); ("limit", QStr "1")] in
  let endless := [("limit", QStr (nines 400))] in
  limitOf [("limit", QStr "9007199254740993")] = Int 9007199254740992
  /\ pageOf big = Int 100000000000000000000
  /\ getProp "prev" (pagination (pageOf big) (limitOf big) 3)
     = Some (Window (Int 100000000000000000000) (Int 1))
  /\ startIndex (pageOf big) (limitOf big) = Int 100000000000000000000
  /\ limitOf endless = Inf false
  /\ startIndex (pageOf endless) (limitOf endless) = NaN
  /\ pagination (pageOf endless) (limitOf endless) 3 = [].
Proof.
  cbv zeta. repeat split; vm_compute; reflexivity.
Qed.

(** ** The total of the pagination object *)

(** C3, as the code has it.  The total comes from a count without any
    predicate: for every filter it is the size of the whole collection.
    The number of records matching the filter never exceeds it, and equals
    it exactly when every record matches. *)
Theorem total_counts_whole_collection (dr : Driver) (db : list bootcamp)
  (q : query) (p : qval) :
  totalOf dr db = Z.of_nat (length db)
  /\ (forall status b, ListEndpoint.getBootcamps dr db q = Json status b ->
        getProp "pagination" b
        = Some (JPagination (pagination (pageOf q) (limitOf q) (Z.of_nat (length db)))))
  /\ (countDocuments dr db (Some p) <= totalOf dr db)%Z
  /\ (countDocuments dr db (Some p) = totalOf dr db
      <-> forallb (matches dr p) db = true).
Proof.
  unfold totalOf, countDocuments.
  split; [reflexivity|]. split.
  { intros status b H. now apply getBootcamps_body in H. }
  assert (L : forall l, length (filter (matches dr p) l) <= length l
                        /\ (length (filter (matches dr p) l) = length l
                            <-> forallb (matches dr p) l = true)).
  { induction l as [|d l [IH1 IH2]]; simpl; [split; [lia|tauto]|].
    destruct (matches dr p d); simpl.
    - split; [lia|]. rewrite <- IH2. split; lia.
    - split; [lia|]. split; [lia|discriminate]. }
  destruct (L db) as [L1 L2]. split; [lia|]. rewrite <- L2. lia.
Qed.

(** C3 as stated fails: with the filter [housing=true] two of the three
    sample records match, and the total is 3. *)
Lemma total_ignores_filter :
  let q := [("housing", QStr "true")] in
  exists p, predicateOf q = Some p
    /\ countDocuments Sample.driver Sample.db (Some p) = 2%Z
    /\ totalOf Sample.driver Sample.db = 3%Z
    /\ totalOf Sample.driver Sample.db <> countDocuments Sample.driver Sample.db (Some p).
Proof.
  cbv zeta. eexists. split; [vm_compute; reflexivity|].
  repeat split. discriminate.
Qed.

(** ** Field selection *)

Lemma split_cons (sep : ascii) (s : string) :
  exists w ws, split sep s = w :: ws.
Proof.
  destruct s as [|c s]; simpl; [now eexists; eexists|].
  destruct (Ascii.eqb c sep); [now eexists; eexists|].
  destruct (split sep s); now eexists; eexists.
Qed.

Lemma join_cons_cons (sep w : string) (w' : string) (ws : list string) :
  join sep (w :: w' :: ws) = w ++ sep ++ join sep (w' :: ws).
Proof. reflexivity. Qed.

Lemma join_push (sep : string) (c : ascii) (w : string) (ws : list string) :
  join sep (String c w :: ws) = String c (join sep (w :: ws)).
Proof. destruct ws; reflexivity. Qed.

(** Splitting on commas and joining with spaces replaces each comma by a
    space. *)
Lemma spaced_replaces_commas (v : string) :
  spaced v = mapChars commaToSpace v.
Proof.
  unfold spaced. induction v as [|c v IH]; [reflexivity|].
  cbn [split mapChars].
  assert (Hcs : commaToSpace c = if Ascii.eqb c "," then " "%char else c) by reflexivity.
  rewrite Hcs.
  destruct (split_cons "," v) as (w & ws & Hs). rewrite Hs in *.
  destruct (Ascii.eqb c ",") eqn:E.
  - rewrite join_cons_cons. now rewrite IH.
  - rewrite join_push. now rewrite IH.
Qed.

(** The fields of the space-delimited list are the comma-separated items
    of the value, when no item holds a space. *)
Lemma spaced_items (v : string) :
  hasChar " " v = false -> split " " (spaced v) = split "," v.
Proof.
  rewrite spaced_replaces_commas.
  induction v as [|c v IH]; [reflexivity|].
  cbn [hasChar mapChars split]. intros H. apply orb_false_iff in H as [Hc Hv].
  specialize (IH Hv).
  assert (Hcs : commaToSpace c = if Ascii.eqb c "," then " "%char else c) by reflexivity.
  rewrite Hcs. destruct (Ascii.eqb c ",") eqn:E.
  - change (Ascii.eqb " " " ") with true. cbv iota. now rewrite IH.
  - rewrite Hc. now rewrite IH.
Qed.




(** ** Running the handlers *)

(** Unfolds one run of a handler down to the tests it makes. *)
Ltac run_handler :=
  cbv [run bind ret return_ throw emit newErrorResponse next json
       findById findOneByUser create findByIdAndUpdate remove];
  cbn [db trace fst snd].

(** ** The ownership gate *)

(** [deleteBootcamp] on an existing record: the requester passes exactly
    when it is the owner or has the role [admin]; otherwise the request
    ends with a 401 and the collection is untouched. *)
Lemma deleteBootcamp_gate (req : request) (d : list bootcamp) (b : bootcamp) :
  find (hasId (params_id req)) d = Some b ->
  run (deleteBootcamp req) d
  = if String.eqb (user b) (id (req_user req))
       || String.eqb (role (req_user req)) "admin"
    then (Normal tt,
          {| db := filter (fun b' => negb (hasId (_id b) b')) d;
             trace := [CallJson 200
                         [("success", JBool true);
                          ("message", JStr "The following document has been deleted!");
                          ("bootcamp", JDoc b)]] |})
    else rejected d (unauthorized "delete" req).
Proof.
  intros Hf. unfold deleteBootcamp. run_handler.
  rewrite Hf. unfold differs.
  destruct (String.eqb (user b) (id (req_user req)));
    destruct (String.eqb (role (req_user req)) "admin"); reflexivity.
Qed.

(** [updateBootcamp] on an existing record reads [req.userrole], a
    property no part of the request pipeline sets: with it undefined only
    the owner passes. *)
Lemma updateBootcamp_gate (ev : env) (req : request) (d : list bootcamp)
  (b : bootcamp) :
  find (hasId (params_id req)) d = Some b ->
  userrole req = None ->
  String.eqb (user b) (id (req_user req)) = false ->
  run (updateBootcamp ev req) d = rejected d (unauthorized "update" req).
Proof.
  intros Hf Hu Ho. unfold updateBootcamp. run_handler.
  rewrite Hf, Hu, Ho. reflexivity.
Qed.

(** C6 at its failing input: an admin who does not own bootcamp [b1]
    deletes it successfully, but the same requester's update is answered
    with 401 and changes nothing. *)
Theorem update_rejects_admin_not_owner :
  let req := Scenario.request_ "b1" "u9" "admin" in
  run (updateBootcamp Scenario.ev req) Sample.db
  = rejected Sample.db
      {| message := "User b1 is not authorized to update this bootcamp";
         statusCode := 401 |}
  /\ fst (run (deleteBootcamp req) Sample.db) = Normal tt
  /\ map _id (db (snd (run (deleteBootcamp req) Sample.db))) = ["b2"; "b3"].
Proof. cbv zeta. repeat split. Qed.

(** ** Photo upload *)

(** C7, as the code has it.  A photo upload on an existing bootcamp
    whose file has a mime type not starting with [image] is rejected
    before any file write: the file move is never called, no body is
    sent, the collection is unchanged.  The error handed to [next] is the
    400 one when the requester owns the bootcamp or is an admin, and the
    401 one of the ownership gate otherwise. *)
Theorem upload_rejects_non_image (ev : env) (req : request) (d : list bootcamp)
  (b : bootcamp) (fs : list (string * File)) (file : File) :
  find (hasId (params_id req)) d = Some b ->
  files req = Some fs ->
  getProp "file" fs = Some file ->
  startsWith (mimetype file) "image" = false ->
  let r := run (bootcampPhotoUpload ev req) d in
  existsb isMv (trace (snd r)) = false
  /\ existsb isJson (trace (snd r)) = false
  /\ db (snd r) = d
  /\ r = rejected d (if mayChange req b then invalidImage
                     else unauthorized "update" req).
Proof.
  intros Hf Hfs Hfile Hm r. subst r.
  unfold bootcampPhotoUpload, mayChange, differs. run_handler.
  rewrite Hf, Hfs, Hfile, Hm.
  destruct (String.eqb (user b) (id (req_user req)));
    destruct (String.eqb (role (req_user req)) "admin"); repeat split.
Qed.

Lemma upload_rejects_non_image_witness :
  run (bootcampPhotoUpload Scenario.ev
         (Scenario.upload_ "b1" "u1" "publisher" Scenario.textFile))
      Sample.db
  = rejected Sample.db invalidImage.
Proof.
  exact (proj2 (proj2 (proj2
    (upload_rejects_non_image Scenario.ev
       (Scenario.upload_ "b1" "u1" "publisher" Scenario.textFile)
       Sample.db (Bootcamp "b1" "u1" [("name", "Devworks"); ("housing", "true")])
       [("file", Scenario.textFile)] Scenario.textFile
       eq_refl eq_refl eq_refl eq_refl)))).
Defined.

(** C7 as stated fails: a requester who neither owns bootcamp [b1] nor is
    an admin uploads a text file and is answered with 401, not 400. *)
Lemma upload_non_image_unauthorized_401 :
  let req := Scenario.upload_ "b1" "u2" "publisher" Scenario.textFile in
  startsWith (mimetype Scenario.textFile) "image" = false
  /\ run (bootcampPhotoUpload Scenario.ev req) Sample.db
     = rejected Sample.db
         {| message := "User b1 is not authorized to update this bootcamp";
            statusCode := 401 |}
  /\ run (bootcampPhotoUpload Scenario.ev req) Sample.db
     <> rejected Sample.db invalidImage.
Proof. cbv zeta. split; [reflexivity|]. split; [reflexivity|]. discriminate. Qed.

(** C9. When no bootcamp has the requested id, the photo-upload handler
    constructs the 404 error and does nothing with it: nothing is handed
    to [next], the handler does not return, and the ownership check then
    reads [user] of [null], which throws.  The sibling [updateBootcamp]
    hands the same error to [next] and returns. *)
Theorem upload_missing_bootcamp_falls_through (ev : env) (req : request)
  (d : list bootcamp) :
  find (hasId (params_id req)) d = None ->
  let notFound := {| message := notFoundMsg req; statusCode := 404 |} in
  run (bootcampPhotoUpload ev req) d
  = (Thrown (TypeError "Cannot read property 'user' of null"),
     {| db := d; trace := [NewErrorResponse notFound] |})
  /\ run (updateBootcamp ev req) d = rejected d notFound.
Proof.
  intros Hf notFound. subst notFound.
  unfold bootcampPhotoUpload, updateBootcamp. run_handler.
  rewrite Hf. split; reflexivity.
Qed.

Lemma upload_missing_bootcamp_falls_through_witness :
  let req := Scenario.upload_ "b7" "u1" "publisher" Scenario.photoFile in
  run (bootcampPhotoUpload Scenario.ev req) Sample.db
  = (Thrown (TypeError "Cannot read property 'user' of null"),
     {| db := Sample.db;
        trace := [NewErrorResponse
                    {| message := "Bootcamp not found with id of b7";
                       statusCode := 404 |}] |}).
Proof.
  intros req.
  exact (proj1 (upload_missing_bootcamp_falls_through Scenario.ev req Sample.db eq_refl)).
Defined.

(** ** The response bodies *)

(** The handlers that read and change single bootcamps answer with a
    body whose [success] is [true]. *)
Lemma crud_bodies_have_success (ev : env) (req : request) (d : list bootcamp)
  (status : nat) (b : body) :
  In (CallJson status b) (trace (snd (run (getBootcamp req) d)))
  \/ In (CallJson status b) (trace (snd (run (createBootcamp ev req) d)))
  \/ In (CallJson status b) (trace (snd (run (updateBootcamp ev req) d)))
  \/ In (CallJson status b) (trace (snd (run (deleteBootcamp req) d))) ->
  getProp "success" b = Some (JBool true).
Proof.
  unfold getBootcamp, createBootcamp, updateBootcamp, deleteBootcamp, differs.
  run_handler.
  intros [H|[H|[H|H]]]; revert H.
  - destruct (find (hasId (params_id req)) d); cbn;
      intros H; repeat (destruct H as [H|H]; try discriminate; try contradiction);
      now inversion H.
  - destruct (find _ d); [destruct (String.eqb (role (req_user req)) "admin")|];
      cbn; try destruct (validates ev _); cbn;
      intros H; repeat (destruct H as [H|H]; try discriminate; try contradiction);
      now inversion H.
  - destruct (find (hasId (params_id req)) d);
      [destruct (String.eqb _ (id (req_user req))); destruct (userrole req) as [r|];
       try destruct (String.eqb r "admin")|];
      cbn; try destruct (validates ev _); cbn;
      intros H; repeat (destruct H as [H|H]; try discriminate; try contradiction);
      now inversion H.
  - destruct (find (hasId (params_id req)) d);
      [destruct (String.eqb _ (id (req_user req)));
       destruct (String.eqb (role (req_user req)) "admin")|];
      cbn;
      intros H; repeat (destruct H as [H|H]; try discriminate; try contradiction);
      now inversion H.
Qed.

(** C8 at its failing input: the owner of bootcamp [b1] uploads a JPEG
    within the size limit; the file is moved, the record updated, and the
    200 body sent has the key [succes] and no key [success]. *)
Theorem upload_body_lacks_success :
  let req := Scenario.upload_ "b1" "u1" "publisher" Scenario.photoFile in
  let b := [("succes", JBool true); ("data", JStr "photo_b1.jpg")] in
  fst (run (bootcampPhotoUpload Scenario.ev req) Sample.db) = Normal tt
  /\ trace (snd (run (bootcampPhotoUpload Scenario.ev req) Sample.db))
     = [CallMv "./public/uploads/photo_b1.jpg"; CallJson 200 b]
  /\ getProp "success" b = None.
Proof. cbv zeta. repeat split. Qed.

(** ** Creation *)

Lemma createBootcamp_admin (ev : env) (req : request) (d : list bootcamp) :
  adminJob (ev, req) ->
  run (createBootcamp ev req) d
  = (Normal tt,
     {| db := d ++ [created ev req];
        trace := [CallJson 201 [("success", JBool true);
                                ("data", JDoc (created ev req))]] |}).
Proof.
  intros [Hr Hv]. cbn [fst snd] in Hr, Hv.
  unfold createBootcamp, created. run_handler. rewrite Hr, Hv.
  destruct (find _ d); reflexivity.
Qed.

Lemma createAll_admin (jobs : list (env * request)) :
  Forall adminJob jobs ->
  forall d, createAll jobs d
            = (map (fun _ => Normal tt) jobs,
               (d ++ map (fun j => created (fst j) (snd j)) jobs)%list).
Proof.
  induction 1 as [|[ev req] jobs Hj Hjs IH]; intros d; cbn [createAll map fst snd].
  - now rewrite app_nil_r.
  - rewrite (createBootcamp_admin ev req d Hj). cbn [fst snd db].
    rewrite IH. cbn [fst snd]. now rewrite <- app_assoc.
Qed.

(** C10. A requester who is not an admin and already owns a bootcamp gets
    the 400 error and the collection is unchanged; an admin whose document
    the store accepts gets a 201 and the document is added, whatever the
    collection already holds, and so for any number of creations in a
    row. *)
Theorem create_one_bootcamp_unless_admin (ev : env) (req : request)
  (d : list bootcamp) :
  (String.eqb (role (req_user req)) "admin" = false ->
   (exists b, In b d /\ user b = id (req_user req)) ->
   run (createBootcamp ev req) d = rejected d (alreadyPublished req))
  /\ (adminJob (ev, req) ->
      run (createBootcamp ev req) d
      = (Normal tt,
         {| db := d ++ [created ev req];
            trace := [CallJson 201 [("success", JBool true);
                                    ("data", JDoc (created ev req))]] |}))
  /\ (forall jobs, Forall adminJob jobs ->
        createAll jobs d
        = (map (fun _ => Normal tt) jobs,
           (d ++ map (fun j => created (fst j) (snd j)) jobs)%list)).
Proof.
  split; [|split].
  - unfold createBootcamp. run_handler. intros Hr (b & Hin & Hu).
    destruct (find (fun b0 => String.eqb (user b0) (id (req_user req))) d) eqn:Hf.
    + rewrite Hr. reflexivity.
    + exfalso. apply (find_none _ _ Hf) in Hin. rewrite Hu, String.eqb_refl in Hin.
      discriminate.
  - apply createBootcamp_admin.
  - intros jobs Hj. now apply createAll_admin.
Qed.

Lemma create_one_bootcamp_unless_admin_witness :
  run (createBootcamp Scenario.ev (Scenario.request_ "" "u1" "publisher")) Sample.db
  = rejected Sample.db
      {| message := "The user with ID u1 has already published a bootcamp";
         statusCode := 400 |}
  /\ map _id (db (snd (run (createBootcamp Scenario.ev
                              (Scenario.request_ "" "u1" "admin")) Sample.db)))
     = ["b1"; "b2"; "b3"; "b4"].
Proof.
  split.
  - apply (proj1 (create_one_bootcamp_unless_admin Scenario.ev
                    (Scenario.request_ "" "u1" "publisher") Sample.db));
      [reflexivity|].
    exists (Bootcamp "b1" "u1" [("name", "Devworks"); ("housing", "true")]).
    split; [left; reflexivity | reflexivity].
  - rewrite (proj1 (proj2 (create_one_bootcamp_unless_admin Scenario.ev
                             (Scenario.request_ "" "u1" "admin") Sample.db))
               (conj eq_refl eq_refl)).
    reflexivity.
Defined.

(** ** The filter translation *)

(** *** Strings *)

Lemma append_assoc (a b c : string) : (a ++ b) ++ c = a ++ (b ++ c).
Proof. induction a as [|x a IH]; simpl; [reflexivity | now rewrite IH]. Qed.

Lemma append_nil_r (a : string) : a ++ EmptyString = a.
Proof. induction a as [|x a IH]; simpl; [reflexivity | now rewrite IH]. Qed.

Lemma length_append (a b : string) :
  String.length (a ++ b) = String.length a + String.length b.
Proof. induction a as [|x a IH]; simpl; [reflexivity | now rewrite IH]. Qed.

Lemma operators_are_words (alt : string) : In alt operators -> allWord alt = true.
Proof.
  intros H. repeat (destruct H as [H|H]; [subst; reflexivity|]). destruct H.
Qed.

Lemma find_ext_in {A : Type} (f g : A -> bool) (l : list A) :
  (forall x, In x l -> f x = g x) -> find f l = find g l.
Proof.
  induction l as [|x l IH]; intros H; simpl; [reflexivity|].
  rewrite (H x (or_introl eq_refl)).
  destruct (g x); [reflexivity|]. apply IH. intros y Hy. apply H. now right.
Qed.

(** *** The rewrite and the separators of a text *)

Lemma matchAt_unfold (prev : bool) (s : string) :
  matchAt prev s
  = if wordBoundary prev s then find (altMatches s) operators else None.
Proof. reflexivity. Qed.

(** A character that is no word character, right after the text [x], does
    not change which alternatives match in [x]. *)
Lemma altMatches_sep (alt : string) (c : ascii) (b : string) :
  allWord alt = true -> isWordChar c = false ->
  forall x, altMatches (x ++ String c b) alt = altMatches x alt.
Proof.
  intros Ha Hc. unfold altMatches, wordBoundary.
  induction alt as [|a alt IH]; intros x.
  - destruct x; simpl; [now rewrite Hc | reflexivity].
  - simpl in Ha. apply andb_true_iff in Ha as [Ha1 Ha2].
    destruct x as [|y x]; simpl.
    + destruct (ascii_dec a c) as [->|_]; [congruence | reflexivity].
    + destruct (ascii_dec a y); [apply (IH Ha2) | reflexivity].
Qed.

Lemma matchAt_sep (prev : bool) (y : ascii) (x : string) (c : ascii) (b : string) :
  isWordChar c = false ->
  matchAt prev (String y x ++ String c b) = matchAt prev (String y x).
Proof.
  intros Hc. rewrite !matchAt_unfold.
  change (wordBoundary prev (String y x ++ String c b))
    with (wordBoundary prev (String y x)).
  destruct (wordBoundary prev (String y x)); [|reflexivity].
  apply find_ext_in. intros alt Hin.
  apply altMatches_sep; [now apply operators_are_words | exact Hc].
Qed.

(** No alternative starts at a character that is no word character. *)
Lemma prefix_nonword (alt : string) (c : ascii) (s : string) :
  allWord alt = true -> alt <> EmptyString -> isWordChar c = false ->
  String.prefix alt (String c s) = false.
Proof.
  intros Ha Hn Hc. destruct alt as [|a alt]; [contradiction|].
  simpl in Ha. apply andb_true_iff in Ha as [Ha _]. simpl.
  destruct (ascii_dec a c) as [->|_]; [congruence | reflexivity].
Qed.

Lemma matchAt_nonword (prev : bool) (c : ascii) (s : string) :
  isWordChar c = false -> matchAt prev (String c s) = None.
Proof.
  intros Hc. rewrite matchAt_unfold.
  destruct (wordBoundary prev (String c s)); [|reflexivity].
  rewrite (find_ext_in _ (fun _ => false)); [reflexivity|].
  intros alt H. unfold altMatches.
  rewrite prefix_nonword; [reflexivity | now apply operators_are_words | | exact Hc].
  intros ->. repeat (destruct H as [H|H]; [discriminate|]). destruct H.
Qed.

(** A match lies inside the run of word characters it starts in. *)
Lemma prefix_wordLen (alt s : string) :
  allWord alt = true -> String.prefix alt s = true ->
  String.length alt <= wordLen s.
Proof.
  revert s. induction alt as [|a alt IH]; intros s Ha Hp; simpl; [lia|].
  simpl in Ha. apply andb_true_iff in Ha as [Ha1 Ha2].
  destruct s as [|y s]; simpl in Hp; [discriminate|].
  destruct (ascii_dec a y) as [<-|]; [|discriminate].
  simpl. rewrite Ha1. specialize (IH s Ha2 Hp). lia.
Qed.

Lemma matchAt_wordLen (prev : bool) (s m : string) :
  matchAt prev s = Some m -> String.length m <= wordLen s.
Proof.
  rewrite matchAt_unfold. destruct (wordBoundary prev s); [|discriminate].
  intros H. apply find_some in H as [Hin Hm].
  unfold altMatches in Hm. apply andb_true_iff in Hm as [Hp _].
  apply prefix_wordLen; [now apply operators_are_words | exact Hp].
Qed.

(** The rewrite of a text up to a separator does not depend on what
    follows the separator, and starts afresh after it. *)
Lemma replaceFrom_sep (c : ascii) (b : string) :
  isWordChar c = false ->
  forall a prev copy, copy <= wordLen a ->
    replaceFrom prev copy (a ++ String c b)
    = replaceFrom prev copy a ++ String c (replaceOps b).
Proof.
  intros Hc. induction a as [|y a IH]; intros prev copy Hk.
  - simpl in Hk. assert (copy = 0) by lia. subst copy.
    cbn [append replaceFrom]. rewrite (matchAt_nonword prev c b Hc), Hc. reflexivity.
  - change (String y a ++ String c b) with (String y (a ++ String c b)).
    cbn [replaceFrom]. destruct copy as [|k].
    + change (String y (a ++ String c b)) with (String y a ++ String c b).
      rewrite (matchAt_sep prev y a c b Hc).
      destruct (matchAt prev (String y a)) as [m|] eqn:Hm.
      * apply matchAt_wordLen in Hm. simpl in Hm.
        destruct (isWordChar y); rewrite IH by lia; reflexivity.
      * rewrite IH by lia. reflexivity.
    + simpl in Hk. destruct (isWordChar y); [|lia].
      rewrite IH by lia. reflexivity.
Qed.

Lemma replaceOps_sep (a : string) (c : ascii) (b : string) :
  isWordChar c = false ->
  replaceOps (a ++ String c b) = replaceOps a ++ String c (replaceOps b).
Proof. intros Hc. apply (replaceFrom_sep c b Hc a false 0). lia. Qed.

Lemma replaceOps_head (c : ascii) (b : string) :
  isWordChar c = false -> replaceOps (String c b) = String c (replaceOps b).
Proof. intros Hc. apply (replaceOps_sep EmptyString c b Hc). Qed.

(** *** Texts without escapes *)

Lemma plainChar_inv (c : ascii) :
  plainChar c = true ->
  Ascii.eqb c dquote = false /\ Ascii.eqb c backslash = false
  /\ (nat_of_ascii c <? 32)%nat = false.
Proof.
  unfold plainChar. intros H.
  apply andb_true_iff in H as [H H3]. apply andb_true_iff in H as [H1 H2].
  repeat split; now apply negb_true_iff.
Qed.

Lemma escape_plain (s : string) : plain s = true -> escape s = s.
Proof.
  induction s as [|c s IH]; [reflexivity|]. simpl. intros H.
  apply andb_true_iff in H as [Hc Hs].
  destruct (plainChar_inv c Hc) as (H1 & H2 & H3).
  unfold escapeChar. rewrite H1, H2, H3. simpl. now rewrite IH.
Qed.

Lemma quote_plain (s rest : string) :
  plain s = true -> quote s ++ rest = String dquote (s ++ String dquote rest).
Proof.
  intros H. unfold quote. rewrite (escape_plain s H). simpl.
  now rewrite append_assoc.
Qed.

Lemma parseChars_plain (s rest : string) :
  plain s = true -> parseChars (s ++ String dquote rest) = Some (s, rest).
Proof.
  induction s as [|c s IH]; [reflexivity|]. simpl plain. intros H.
  apply andb_true_iff in H as [Hc Hs].
  destruct (plainChar_inv c Hc) as (H1 & H2 & H3).
  change (String c s ++ String dquote rest) with (String c (s ++ String dquote rest)).
  cbn [parseChars]. rewrite H1, H2, H3, (IH Hs). reflexivity.
Qed.

(** The rewrite only adds [$] signs, so it keeps a text plain. *)
Lemma replaceFrom_plain (s : string) :
  plain s = true -> forall prev copy, plain (replaceFrom prev copy s) = true.
Proof.
  induction s as [|c s IH]; [reflexivity|]. simpl plain. intros H prev copy.
  apply andb_true_iff in H as [Hc Hs]. cbn [replaceFrom].
  destruct copy; [destruct (matchAt prev (String c s))|];
    cbn [plain]; rewrite ?Hc, (IH Hs); reflexivity.
Qed.

(** *** Induction on query values *)

(** Induction on a query value, with the property at hand for every item
    of an array and every property value of an object. *)
Lemma qval_nested_ind (P : qval -> Prop) :
  (forall s, P (QStr s)) ->
  (forall items, Forall P items -> P (QArr items)) ->
  (forall props, Forall (fun kv => P (snd kv)) props -> P (QObj props)) ->
  forall v, P v.
Proof.
  intros HStr HArr HObj. fix IH 1. intros [s|items|props].
  - apply HStr.
  - apply HArr. induction items as [|x l IHl]; constructor; [apply IH | exact IHl].
  - apply HObj. induction props as [|[k x] l IHl]; constructor; [apply IH | exact IHl].
Qed.

(** *** The rewrite, read on the parsed structure *)

Lemma join_cons2 (x y : string) (l : list string) :
  join "," (x :: y :: l) = x ++ String "," (join "," (y :: l)).
Proof. reflexivity. Qed.

(** The rewrite of a comma-separated list of rendered items, followed by
    a separator, when it commutes with the rendering of each item. *)
Lemma replaceOps_join {A : Type} (render : A -> string) (tr : A -> A)
  (c : ascii) (rest : string) (l : list A) :
  isWordChar c = false ->
  Forall (fun x => forall r, replaceOps (render x ++ r) = render (tr x) ++ replaceOps r) l ->
  replaceOps (join "," (map render l) ++ String c rest)
  = join "," (map render (map tr l)) ++ String c (replaceOps rest).
Proof.
  intros Hc. induction 1 as [|x l Hx Hl IH].
  - simpl. now apply replaceOps_head.
  - destruct l as [|y l].
    + simpl. rewrite Hx. now rewrite replaceOps_head.
    + cbn [map] in *. rewrite !join_cons2, append_assoc.
      change (String "," (join "," (render y :: map render l)) ++ String c rest)
        with (String "," (join "," (render y :: map render l) ++ String c rest)).
      rewrite Hx, replaceOps_head by reflexivity. rewrite IH.
      rewrite append_assoc. reflexivity.
Qed.

Lemma replaceOps_quote (s rest : string) :
  plain s = true ->
  replaceOps (quote s ++ rest) = quote (replaceOps s) ++ replaceOps rest.
Proof.
  intros H. rewrite (quote_plain s rest H).
  rewrite (quote_plain (replaceOps s) (replaceOps rest))
    by (now apply replaceFrom_plain).
  rewrite replaceOps_head by reflexivity.
  now rewrite replaceOps_sep by reflexivity.
Qed.

(** On a value without escapes, rewriting the serialised text is
    rewriting every key and every string, then serialising. *)
Lemma replaceOps_stringify (v : qval) :
  plainVal v = true ->
  forall rest, replaceOps (stringify v ++ rest)
               = stringify (mapStrings replaceOps v) ++ replaceOps rest.
Proof.
  induction v as [s|items IH|props IH] using qval_nested_ind; intros Hp rest.
  - apply replaceOps_quote. exact Hp.
  - cbn [stringify mapStrings]. rewrite !append_assoc.
    change (("[" ++ ?x)) with (String "[" x).
    cbn [append]. rewrite replaceOps_head by reflexivity.
    rewrite (replaceOps_join stringify (mapStrings replaceOps)); [reflexivity..|].
    cbn [plainVal] in Hp. rewrite forallb_forall in Hp.
    rewrite Forall_forall in *. intros x Hx. apply (IH x Hx). now apply Hp.
  - cbn [stringify mapStrings]. rewrite !append_assoc.
    cbn [append]. rewrite replaceOps_head by reflexivity.
    rewrite map_map.
    rewrite (replaceOps_join (fun kv => quote (fst kv) ++ ":" ++ stringify (snd kv))
               (fun kv => (replaceOps (fst kv), mapStrings replaceOps (snd kv))));
      [rewrite map_map; reflexivity | reflexivity |].
    cbn [plainVal] in Hp. rewrite forallb_forall in Hp.
    rewrite Forall_forall in *. intros [k x] Hx r. cbn [fst snd].
    specialize (Hp _ Hx). cbn [fst snd] in Hp. apply andb_true_iff in Hp as [Hk Hv].
    rewrite append_assoc, replaceOps_quote by exact Hk.
    cbn [append]. rewrite replaceOps_head by reflexivity.
    rewrite (IH _ Hx Hv). now rewrite !append_assoc.
Qed.

(** *** Parsing a serialised value *)

Lemma stringify_obj (props : list (string * qval)) :
  stringify (QObj props) = "{" ++ join "," (map member props) ++ "}".
Proof. reflexivity. Qed.

(** A serialised value starts with a quote, a bracket or a brace. *)
Lemma stringify_head (v : qval) :
  exists c t, stringify v = String c t /\ (c = dquote \/ c = "["%char \/ c = "{"%char).
Proof.
  destruct v; cbn [stringify quote]; eexists; eexists; (split; [reflexivity|]); auto.
Qed.

Lemma skipWs_nonws (c : ascii) (t : string) :
  isJsonWs c = false -> skipWs (String c t) = String c t.
Proof. intros H. cbn [skipWs]. now rewrite H. Qed.

(** Steps over a structural character of the text. *)
Ltac skip_ws := cbn [append]; rewrite skipWs_nonws by reflexivity; cbv iota beta.

Lemma parseElems_items (rest : string) (l : list qval) :
  Forall parsesBack l ->
  forall x acc fuel,
    parsesBack x -> forallb plainVal (x :: l) = true ->
    list_sum (map (fun x => S (weight x)) (x :: l)) <= fuel ->
    parseElems fuel (join "," (map stringify (x :: l)) ++ String "]" rest) acc
    = Some (QArr (acc ++ map reparsed (x :: l)), rest).
Proof.
  induction 1 as [|y l Hy Hl IH]; intros x acc fuel Hx Hp Hf.
  - cbn [map list_sum fold_right forallb] in *. apply andb_true_iff in Hp as [Hpx _].
    destruct fuel as [|fuel]; [lia|]. cbn [parseElems join String.concat].
    rewrite (Hx Hpx) by lia. reflexivity.
  - cbn [forallb] in Hp. apply andb_true_iff in Hp as [Hpx Hp].
    cbn [map list_sum fold_right] in Hf.
    destruct fuel as [|fuel]; [lia|]. cbn [map]. rewrite join_cons2, append_assoc.
    cbn [parseElems].
    change (String "," (join "," (stringify y :: map stringify l)) ++ String "]" rest)
      with (String "," (join "," (map stringify (y :: l)) ++ String "]" rest)).
    rewrite (Hx Hpx) by lia. skip_ws.
    rewrite (IH y (acc ++ [reparsed x])%list fuel Hy Hp) by (cbn [map list_sum fold_right]; lia).
    now rewrite <- app_assoc.
Qed.

Lemma parseMembers_props (rest : string) (l : list (string * qval)) :
  Forall (fun kv => parsesBack (snd kv)) l ->
  forall kv acc fuel,
    parsesBack (snd kv) ->
    forallb (fun kv => plain (fst kv) && plainVal (snd kv)) (kv :: l) = true ->
    list_sum (map (fun kv => S (weight (snd kv))) (kv :: l)) <= fuel ->
    parseMembers fuel (join "," (map member (kv :: l)) ++ String "}" rest) acc
    = Some (QObj (fold_left (fun acc kv => setProp (fst kv) (reparsed (snd kv)) acc)
                            (kv :: l) acc), rest).
Proof.
  induction 1 as [|y l Hy Hl IH]; intros [k x] acc fuel Hx Hp Hf; cbn [fst snd] in *.
  - cbn [map list_sum fold_right forallb fst snd] in *. apply andb_true_iff in Hp as [Hp _].
    apply andb_true_iff in Hp as [Hk Hpx].
    destruct fuel as [|fuel]; [lia|]. cbn [join String.concat fold_left fst snd].
    unfold member. cbn [fst snd]. rewrite append_assoc, (quote_plain k _ Hk).
    cbn [parseMembers]. skip_ws. rewrite (parseChars_plain k _ Hk).
    rewrite ?append_assoc. skip_ws.
    rewrite (Hx Hpx) by lia. reflexivity.
  - cbn [forallb fst snd] in Hp. apply andb_true_iff in Hp as [Hp Hpl].
    apply andb_true_iff in Hp as [Hk Hpx].
    cbn [map list_sum fold_right fst snd] in Hf.
    destruct fuel as [|fuel]; [lia|]. cbn [map]. rewrite join_cons2, append_assoc.
    unfold member at 1. cbn [fst snd]. rewrite append_assoc, (quote_plain k _ Hk).
    cbn [parseMembers].
    skip_ws. rewrite (parseChars_plain k _ Hk).
    rewrite ?append_assoc. skip_ws.
    rewrite (Hx Hpx) by lia.
    skip_ws.
    change (member y :: map member l) with (map member (y :: l)).
    rewrite (IH y (setProp k (reparsed x) acc) fuel Hy Hpl) by (cbn [map list_sum fold_right]; lia).
    reflexivity.
Qed.

(** On a value without escapes, [parseValue] reads the serialisation back
    and leaves what follows it. *)
Lemma parseValue_stringify (v : qval) : parsesBack v.
Proof.
  induction v as [s|items IH|props IH] using qval_nested_ind;
    intros Hp fuel rest Hf; cbn [weight] in Hf; (destruct fuel as [|fuel]; [lia|]).
  all: apply le_S_n in Hf.
  - cbn [stringify reparsed]. rewrite (quote_plain s rest Hp).
    cbn [parseValue]. skip_ws. now rewrite (parseChars_plain s rest Hp).
  - cbn [stringify reparsed]. rewrite !append_assoc. cbn [append parseValue].
    skip_ws.
    destruct items as [|x l]; [reflexivity|].
    inversion IH as [|x' l' Hx Hl]; subst.
    rewrite (parseElems_items rest l Hl x [] fuel Hx Hp) by lia.
    destruct (stringify_head x) as (c & t & Hs & Hc).
    assert (E : exists t', join "," (map stringify (x :: l)) ++ String "]" rest = String c t').
    { destruct l; cbn [map]; [|rewrite join_cons2]; cbn [join String.concat];
        rewrite Hs; eexists; reflexivity. }
    destruct E as [t' ->].
    destruct Hc as [-> | [-> | ->]]; reflexivity.
  - rewrite stringify_obj. cbn [reparsed]. rewrite !append_assoc.
    cbn [append parseValue]. skip_ws.
    destruct props as [|[k x] l]; [reflexivity|].
    inversion IH as [|x' l' Hx Hl]; subst.
    rewrite (parseMembers_props rest l Hl (k, x) [] fuel Hx Hp) by lia.
    assert (E : exists t', join "," (map member ((k, x) :: l)) ++ String "}" rest
                           = String dquote t').
    { destruct l; cbn [map]; [|rewrite join_cons2]; cbn [join String.concat];
        unfold member at 1, quote; eexists; reflexivity. }
    destruct E as [t' ->]. reflexivity.
Qed.

Lemma length_join_ge {A : Type} (render : A -> string) (w : A -> nat) (l : list A) :
  Forall (fun x => w x <= String.length (render x)) l ->
  list_sum (map w l) <= String.length (join "," (map render l)).
Proof.
  induction 1 as [|x l Hx Hl IH]; [apply Nat.le_refl|].
  destruct l as [|y l].
  - cbn [map list_sum fold_right join String.concat]. lia.
  - cbn [map] in *. rewrite join_cons2, length_append.
    cbn [list_sum fold_right String.length] in *. lia.
Qed.

Lemma weight_le_length (v : qval) : S (weight v) <= String.length (stringify v).
Proof.
  induction v as [s|items IH|props IH] using qval_nested_ind.
  - cbn [stringify weight quote String.length]. rewrite length_append. simpl. lia.
  - cbn [stringify weight]. rewrite !length_append.
    pose proof (length_join_ge stringify (fun x => S (weight x)) items IH).
    cbn [String.length]. lia.
  - rewrite stringify_obj. cbn [weight]. rewrite !length_append.
    assert (H : Forall (fun kv => S (weight (snd kv)) <= String.length (member kv)) props).
    { rewrite Forall_forall in *. intros kv Hin. specialize (IH kv Hin).
      unfold member. rewrite !length_append. lia. }
    pose proof (length_join_ge member (fun kv => S (weight (snd kv))) props H).
    cbn [String.length]. lia.
Qed.

(** [JSON.parse(JSON.stringify(v))] on a value without escapes. *)
Lemma parse_stringify (v : qval) :
  plainVal v = true -> parse (stringify v) = Some (reparsed v).
Proof.
  intros Hp. unfold parse.
  rewrite <- (append_nil_r (stringify v)) at 2.
  rewrite (parseValue_stringify v Hp); [reflexivity|].
  pose proof (weight_le_length v). lia.
Qed.

Lemma mapStrings_plain (v : qval) :
  plainVal v = true -> plainVal (mapStrings replaceOps v) = true.
Proof.
  induction v as [s|items IH|props IH] using qval_nested_ind; cbn [plainVal mapStrings].
  - intros H. now apply replaceFrom_plain.
  - rewrite !forallb_forall. intros H x Hx. apply in_map_iff in Hx as (y & <- & Hy).
    rewrite Forall_forall in IH. apply IH; auto.
  - rewrite !forallb_forall. intros H x Hx. apply in_map_iff in Hx as (y & <- & Hy).
    rewrite Forall_forall in IH. specialize (H y Hy).
    apply andb_true_iff in H as [H1 H2]. cbn [fst snd].
    unfold replaceOps at 1. rewrite (replaceFrom_plain _ H1), (IH y Hy H2). reflexivity.
Qed.

Lemma reqQueryOf_plain (q : query) :
  plainVal (QObj q) = true -> plainVal (QObj (reqQueryOf q)) = true.
Proof.
  unfold reqQueryOf, removeFields, deleteProp. cbn [fold_left plainVal].
  rewrite !forallb_forall. intros H x Hx.
  repeat (apply filter_In in Hx as [Hx _]). now apply H.
Qed.

(** The predicate of a query without escapes: every key and every string
    of the filter parameters goes through the token rewrite. *)
Lemma predicateOf_plain (q : query) :
  plainVal (QObj q) = true ->
  predicateOf q = Some (reparsed (mapStrings replaceOps (QObj (reqQueryOf q)))).
Proof.
  intros Hp. apply reqQueryOf_plain in Hp. unfold predicateOf, queryStrOf.
  rewrite <- (append_nil_r (stringify (QObj (reqQueryOf q)))).
  rewrite (replaceOps_stringify _ Hp). change (replaceOps EmptyString) with EmptyString.
  rewrite append_nil_r. apply parse_stringify. now apply mapStrings_plain.
Qed.

(** *** The rewrite on a single word *)

Lemma replaceFrom_copy (s : string) :
  forall prev copy, String.length s <= copy -> replaceFrom prev copy s = s.
Proof.
  induction s as [|c s IH]; intros prev copy H; [reflexivity|].
  cbn [replaceFrom]. destruct copy as [|k]; [simpl in H; lia|].
  rewrite IH; [reflexivity | simpl in H; lia].
Qed.

Lemma replaceFrom_inside_word (s : string) :
  allWord s = true -> replaceFrom true 0 s = s.
Proof.
  induction s as [|c s IH]; [reflexivity|]. simpl allWord. intros H.
  apply andb_true_iff in H as [Hc Hs]. cbn [replaceFrom].
  rewrite matchAt_unfold. unfold wordBoundary. cbn [headIsWord]. rewrite Hc.
  cbn [xorb]. now rewrite IH.
Qed.

(** On a word, an alternative matches when it is the whole word. *)
Lemma altMatches_word (alt : string) :
  forall s, allWord s = true -> altMatches s alt = String.eqb alt s.
Proof.
  unfold altMatches, wordBoundary.
  induction alt as [|a alt IH]; intros s Hs.
  - destruct s as [|y s]; [reflexivity|]. simpl in Hs.
    apply andb_true_iff in Hs as [Hy _]. simpl. now rewrite Hy.
  - destruct s as [|y s]; [reflexivity|]. simpl in Hs.
    apply andb_true_iff in Hs as [_ Hs]. simpl.
    destruct (ascii_dec a y) as [->|Hn].
    + rewrite Ascii.eqb_refl. now apply IH.
    + apply Ascii.eqb_neq in Hn. now rewrite Hn.
Qed.

(** A word is prefixed when it is one of the five operator words, and
    copied otherwise. *)
Lemma replaceOps_word (s : string) :
  allWord s = true ->
  replaceOps s = if existsb (fun alt => String.eqb alt s) operators
                 then String "$" s else s.
Proof.
  intros Hs. destruct s as [|c s]; [reflexivity|].
  unfold replaceOps. cbn [replaceFrom]. rewrite matchAt_unfold.
  pose proof Hs as Hs'. simpl in Hs'. apply andb_true_iff in Hs' as [Hc Hw].
  unfold wordBoundary. cbn [headIsWord]. rewrite Hc. cbn [xorb].
  rewrite (find_ext_in _ (fun alt => String.eqb alt (String c s)))
    by (intros alt _; now apply altMatches_word).
  destruct (find (fun alt => String.eqb alt (String c s)) operators) as [m|] eqn:Hf.
  - apply find_some in Hf as [Hin Hm]. apply String.eqb_eq in Hm. subst m.
    assert (E : existsb (fun alt => String.eqb alt (String c s)) operators = true).
    { apply existsb_exists. exists (String c s). split; [exact Hin | apply String.eqb_refl]. }
    rewrite E. rewrite replaceFrom_copy; [reflexivity | simpl; lia].
  - assert (E : existsb (fun alt => String.eqb alt (String c s)) operators = false).
    { destruct (existsb _ operators) eqn:E; [|reflexivity].
      apply existsb_exists in E as (alt & Hin & Halt).
      now rewrite (find_none _ _ Hf alt Hin) in Halt. }
    rewrite E. now rewrite replaceFrom_inside_word.
Qed.






(** Whenever its parameters are free of escapes, [select] and [sort] are
    strings or absent and the store answers the query, the list endpoint
    responds with the envelope. *)
Lemma getBootcamps_responds (dr : Driver) (d : list bootcamp) (q : query)
  (sel : option string) (srt : string) (l : list bootcamp) :
  plainVal (QObj q) = true ->
  selectOf q = inr sel -> sortOf q = inr srt ->
  exec dr d {| conditions := reparsed (mapStrings replaceOps (QObj (reqQueryOf q)));
               populated := "courses"; selected := sel; sorted := srt;
               skipped := startIndex (pageOf q) (limitOf q);
               limited := limitOf q |} = Some l ->
  ListEndpoint.getBootcamps dr d q
  = Json 200 [("success", JBool true);
              ("count", JNum (Z.of_nat (length l)));
              ("pagination",
               JPagination (pagination (pageOf q) (limitOf q) (totalOf dr d)));
              ("data", JDocs l)].
Proof.
  intros Hp Hs Ho He. unfold ListEndpoint.getBootcamps.
  rewrite (predicateOf_plain q Hp), Hs, Ho, He. reflexivity.
Qed.

(** * Further properties *)

(** ** The operator rewrite *)

Lemma replaceFrom_without_dollar (s : string) :
  forall prev copy,
    withoutChar "$" (replaceFrom prev copy s) = withoutChar "$" s.
Proof.
  induction s as [|c s IH]; intros prev copy; [reflexivity|].
  cbn [replaceFrom]. destruct copy as [|k]; [destruct (matchAt prev (String c s))|];
    cbn [withoutChar]; change (Ascii.eqb "$" "$") with true; cbv iota;
    rewrite IH; reflexivity.
Qed.

Lemma replaceFrom_length (s : string) :
  forall prev copy, String.length s <= String.length (replaceFrom prev copy s).
Proof.
  induction s as [|c s IH]; intros prev copy; [apply Nat.le_refl|].
  cbn [replaceFrom]. destruct copy as [|k]; [destruct (matchAt prev (String c s))|];
    cbn [String.length];
    match goal with
    | |- context [replaceFrom ?p ?k s] => specialize (IH p k)
    end; lia.
Qed.

(** A rewrite that shows no [$] has changed nothing. *)
Lemma replaceFrom_no_dollar (s : string) :
  forall prev copy,
    hasChar "$" (replaceFrom prev copy s) = false -> replaceFrom prev copy s = s.
Proof.
  induction s as [|c s IH]; intros prev copy; [reflexivity|].
  cbn [replaceFrom]. destruct copy as [|k]; [destruct (matchAt prev (String c s))|];
    cbn [hasChar]; intros H.
  - discriminate H.
  - apply orb_false_iff in H as [_ H]. now rewrite (IH _ _ H).
  - apply orb_false_iff in H as [_ H]. now rewrite (IH _ _ H).
Qed.

(** X1. The rewrite only inserts [$] signs: the text it returns, without
    its [$] signs, is the text it was given without its own, and it is
    never shorter. *)
Theorem rewrite_only_inserts_dollars (s : string) :
  withoutChar "$" (replaceOps s) = withoutChar "$" s
  /\ String.length s <= String.length (replaceOps s)
  /\ (hasChar "$" (replaceOps s) = false -> replaceOps s = s).
Proof.
  unfold replaceOps. split; [apply replaceFrom_without_dollar|].
  split; [apply replaceFrom_length | apply replaceFrom_no_dollar].
Qed.

(** ** The predicate of the list endpoint *)

(** X2. For every query free of quotes, backslashes and control
    characters, whatever its nesting, the predicate handed to the store is
    the filter parameters with each key and each string rewritten token by
    token; the parse after the rewrite never fails. *)
Theorem predicate_rewrites_every_string (dr : Driver) (d : list bootcamp) (q : query) :
  plainVal (QObj q) = true ->
  predicateOf q = Some (reparsed (mapStrings replaceOps (QObj (reqQueryOf q))))
  /\ ListEndpoint.getBootcamps dr d q <> Threw SyntaxError.
Proof.
  intros Hp. split; [now apply predicateOf_plain|].
  unfold ListEndpoint.getBootcamps. rewrite (predicateOf_plain q Hp).
  destruct (selectOf q) as [e|sel] eqn:Hs.
  - unfold selectOf in Hs. destruct (getProp "select" q) as [[v|l|o]|];
      try destruct (truthy _); inversion Hs; discriminate.
  - destruct (sortOf q) as [e|srt] eqn:Ho.
    + unfold sortOf in Ho. destruct (getProp "sort" q) as [[v|l|o]|];
        try destruct (truthy _); inversion Ho; discriminate.
    + cbv zeta. destruct (exec dr d _); discriminate.
Qed.

Lemma predicate_rewrites_every_string_witness :
  predicateOf [("careers", QObj [("in", QArr [QStr "Business"; QStr "in"])]);
               ("page", QStr "2")]
  = Some (QObj [("careers", QObj [("$in", QArr [QStr "Business"; QStr "$in"])])]).
Proof.
  exact (proj1 (predicate_rewrites_every_string Sample.driver Sample.db
                  [("careers", QObj [("in", QArr [QStr "Business"; QStr "in"])]);
                   ("page", QStr "2")] eq_refl)).
Defined.

Lemma setProp_keys {A : Type} (k k' : string) (v : A) (o : list (string * A)) :
  In k (map fst (setProp k' v o)) -> k = k' \/ In k (map fst o).
Proof.
  induction o as [|[k0 v0] o IH]; cbn [setProp map fst In].
  - intros [H|[]]. now left.
  - destruct (String.eqb k' k0); cbn [map fst In].
    + intros [H|H]; [now left | now right; right].
    + intros [H|H]; [now right; left|]. destruct (IH H); [now left | now right; right].
Qed.

Lemma fold_setProp_keys {A B : Type} (g : B -> A) (k : string)
  (l : list (string * B)) :
  forall acc,
    In k (map fst (fold_left (fun acc kv => setProp (fst kv) (g (snd kv)) acc) l acc)) ->
    In k (map fst l) \/ In k (map fst acc).
Proof.
  induction l as [|[k0 v0] l IH]; intros acc; cbn [fold_left map fst snd In].
  - now right.
  - intros H. destruct (IH _ H) as [H1|H1]; [now left; right|].
    apply setProp_keys in H1 as [->|H1]; [now left; left | now right].
Qed.

Lemma getProp_absent {A : Type} (k : string) (o : list (string * A)) :
  ~ In k (map fst o) -> getProp k o = None.
Proof.
  induction o as [|[k0 v0] o IH]; [reflexivity|]. cbn [map fst In getProp].
  intros H. destruct (String.eqb_spec k k0) as [->|_]; [exfalso; apply H; now left|].
  apply IH. intros Hk. apply H. now right.
Qed.

Lemma reqQueryOf_in (q : query) (kv : string * qval) :
  In kv (reqQueryOf q) <-> In kv q /\ ~ In (fst kv) removeFields.
Proof.
  unfold reqQueryOf, removeFields, deleteProp. cbn [fold_left].
  rewrite !filter_In, !negb_true_iff, !String.eqb_neq. cbn [In].
  split.
  - intros ((((H & H1) & H2) & H3) & H4). split; [exact H|].
    intros [E|[E|[E|[E|[]]]]]; congruence.
  - intros [H Hn]. repeat split; try exact H; intros E; apply Hn; rewrite <- E; auto.
Qed.

(** X3. The reserved parameters never reach the predicate: for every
    query free of escapes, the predicate is an object that has none of
    [select], [sort], [page] and [limit] among its properties. *)
Theorem reserved_parameters_not_in_predicate (q : query) :
  plainVal (QObj q) = true ->
  exists props, predicateOf q = Some (QObj props)
    /\ forall r, In r removeFields -> getProp r props = None.
Proof.
  intros Hp. rewrite (predicateOf_plain q Hp). cbn [mapStrings reparsed].
  eexists. split; [reflexivity|]. intros r Hr. apply getProp_absent. intros Hk.
  apply fold_setProp_keys in Hk as [Hk|[]].
  rewrite map_map in Hk. cbn [fst] in Hk. apply in_map_iff in Hk as (kv & Hkv & Hin).
  apply reqQueryOf_in in Hin as [_ Hn].
  assert (E : replaceOps (fst kv) = fst kv).
  { apply replaceFrom_no_dollar. unfold replaceOps in Hkv. rewrite Hkv.
    repeat (destruct Hr as [Hr|Hr]; [subst r; reflexivity|]). destruct Hr. }
  apply Hn. rewrite <- E, Hkv. exact Hr.
Qed.

Lemma reserved_parameters_not_in_predicate_witness :
  exists props,
    predicateOf [("select", QStr "name"); ("housing", QStr "true");
                 ("limit", QStr "2"); ("sort", QStr "name"); ("page", QStr "1")]
    = Some (QObj props)
    /\ getProp "limit" props = None.
Proof.
  destruct (reserved_parameters_not_in_predicate
              [("select", QStr "name"); ("housing", QStr "true");
               ("limit", QStr "2"); ("sort", QStr "name"); ("page", QStr "1")]
              eq_refl) as (props & Hp & Hr).
  exists props. split; [exact Hp|]. apply Hr. simpl. auto.
Defined.

Lemma quiet_untouched (s : string) : quiet s = true -> replaceOps s = s.
Proof.
  unfold quiet. intros H. apply andb_true_iff in H as [Hw Hn].
  apply negb_true_iff in Hn. now rewrite (replaceOps_word s Hw), Hn.
Qed.

Lemma setProp_fresh {A : Type} (k : string) (v : A) (o : list (string * A)) :
  ~ In k (map fst o) -> setProp k v o = (o ++ [(k, v)])%list.
Proof.
  induction o as [|[k0 v0] o IH]; [reflexivity|]. cbn [map fst In setProp app].
  intros H. destruct (String.eqb_spec k k0) as [->|_]; [exfalso; apply H; now left|].
  rewrite IH; [reflexivity|]. intros Hk. apply H. now right.
Qed.

Lemma fold_setProp_distinct {A B : Type} (g : B -> A) (l : list (string * B)) :
  forall acc,
    NoDup (map fst acc ++ map fst l) ->
    fold_left (fun acc kv => setProp (fst kv) (g (snd kv)) acc) l acc
    = (acc ++ map (fun kv => (fst kv, g (snd kv))) l)%list.
Proof.
  induction l as [|[k v] l IH]; intros acc Hn; cbn [fold_left map fst snd].
  - now rewrite app_nil_r.
  - cbn [map fst] in Hn.
    assert (Hk : ~ In k (map fst acc)).
    { apply NoDup_remove_2 in Hn. intros Hk. apply Hn. apply in_or_app. now left. }
    rewrite (setProp_fresh k (g v) acc Hk), IH.
    + now rewrite <- app_assoc.
    + rewrite map_app. cbn [map fst]. rewrite <- app_assoc. exact Hn.
Qed.

Lemma deleteProp_keys {A : Type} (k : string) (o : list (string * A)) :
  map fst (deleteProp k o) = filter (fun x => negb (String.eqb k x)) (map fst o).
Proof.
  unfold deleteProp. induction o as [|[k0 v0] o IH]; [reflexivity|].
  cbn [filter map fst]. destruct (negb (String.eqb k k0)); cbn [map fst]; now rewrite IH.
Qed.

Lemma reqQueryOf_distinct (q : query) :
  NoDup (map fst q) -> NoDup (map fst (reqQueryOf q)).
Proof.
  intros H. unfold reqQueryOf, removeFields. cbn [fold_left].
  rewrite !deleteProp_keys. now repeat apply NoDup_filter.
Qed.

(** X4. Equality filters pass through as they are: when every parameter
    that is not reserved is [f=v] with [f] and [v] made of letters, digits
    and underscores and none of the five operator words, and no name
    occurs twice, the predicate is exactly those parameters. *)
Theorem literal_filters_untouched (q : query) :
  forallb literalField (reqQueryOf q) = true ->
  plainVal (QObj q) = true ->
  NoDup (map fst q) ->
  predicateOf q = Some (QObj (reqQueryOf q)).
Proof.
  intros Hl Hp Hn. rewrite (predicateOf_plain q Hp). f_equal.
  apply reqQueryOf_distinct in Hn. revert Hl Hn.
  generalize (reqQueryOf q). intros l Hl Hn.
  cbn [mapStrings reparsed]. f_equal.
  rewrite fold_setProp_distinct.
  - cbn [app]. rewrite map_map. cbn [fst snd].
    rewrite <- (map_id l) at 2. apply map_ext_in. intros [k v] Hin.
    rewrite forallb_forall in Hl. specialize (Hl _ Hin). unfold literalField in Hl.
    cbn [fst snd] in *. apply andb_true_iff in Hl as [Hk Hv].
    destruct v as [v|?|?]; try discriminate.
    cbn [mapStrings reparsed]. now rewrite (quiet_untouched k Hk), (quiet_untouched v Hv).
  - cbn [map app]. rewrite map_map. cbn [fst].
    assert (E : map (fun x : string * qval => replaceOps (fst x)) l = map fst l).
    { apply map_ext_in. intros [k v] Hin. rewrite forallb_forall in Hl.
      specialize (Hl _ Hin). unfold literalField in Hl. cbn [fst snd] in *.
      apply andb_true_iff in Hl as [Hk _]. now apply quiet_untouched. }
    now rewrite E.
Qed.

Lemma literal_filters_untouched_witness :
  predicateOf [("housing", QStr "true"); ("page", QStr "2"); ("jobGuarantee", QStr "false")]
  = Some (QObj [("housing", QStr "true"); ("jobGuarantee", QStr "false")]).
Proof.
  apply (literal_filters_untouched
           [("housing", QStr "true"); ("page", QStr "2"); ("jobGuarantee", QStr "false")]);
    [reflexivity | reflexivity |].
  repeat constructor; simpl; intuition discriminate.
Defined.



(** ** Sorting, and parameters that are no strings *)

(** X6. The sort specification is [-createdAt] when [sort] is absent or
    empty; otherwise it is the value with each comma replaced by a space,
    so that (when no item holds a space) its space-separated items are the
    comma-separated items of the value, in order and with their [-]
    marks. *)
Theorem sort_default_or_spaced (q : query) :
  (getProp "sort" q = None -> sortOf q = inr "-createdAt")
  /\ (getProp "sort" q = Some (QStr EmptyString) -> sortOf q = inr "-createdAt")
  /\ (forall v, getProp "sort" q = Some (QStr v) -> v <> EmptyString ->
        sortOf q = inr (mapChars commaToSpace v)
        /\ (hasChar " " v = false ->
            split " " (mapChars commaToSpace v) = split "," v)).
Proof.
  unfold sortOf. split; [|split].
  - intros ->. reflexivity.
  - intros ->. reflexivity.
  - intros v -> Hv.
    assert (T : truthy (Some (QStr v)) = true).
    { simpl. destruct (String.eqb_spec v EmptyString); [contradiction|reflexivity]. }
    rewrite T, spaced_replaces_commas. split; [reflexivity|].
    intros Hs. rewrite <- spaced_replaces_commas. now apply spaced_items.
Qed.

Lemma sort_default_or_spaced_witness :
  sortOf [("sort", QStr "-createdAt,name")] = inr "-createdAt name"
  /\ split " " "-createdAt name" = ["-createdAt"; "name"].
Proof.
  destruct (proj2 (proj2 (sort_default_or_spaced [("sort", QStr "-createdAt,name")]))
              "-createdAt,name" eq_refl ltac:(discriminate)) as [H1 H2].
  split; [exact H1 | exact (H2 eq_refl)].
Defined.



(** ** Paging *)

Lemma digitVal_nonneg (c : ascii) (d : Z) : digitVal c = Some d -> (0 <= d)%Z.
Proof.
  unfold digitVal.
  destruct ((48 <=? nat_of_ascii c)%nat && (nat_of_ascii c <=? 57)%nat) eqn:E;
    [|discriminate].
  apply andb_true_iff in E as [E _]. apply Nat.leb_le in E.
  intros H. inversion H. lia.
Qed.

Lemma digitsPrefix_nonneg (s : string) :
  forall acc z,
    (forall a, acc = Some a -> (0 <= a)%Z) ->
    digitsPrefix s acc = Some z -> (0 <= z)%Z.
Proof.
  induction s as [|c s IH]; intros acc z Ha; cbn [digitsPrefix].
  - intros ->. now apply Ha.
  - destruct (digitVal c) as [d|] eqn:Hd.
    + apply IH. intros a E. apply digitVal_nonneg in Hd.
      assert (Hacc : (0 <= match acc with Some a0 => a0 | None => 0 end)%Z).
      { destruct acc as [a0|]; [now apply Ha | lia]. }
      revert E Hacc. generalize (match acc with Some a0 => a0 | None => 0%Z end).
      intros z0 E Hz0. assert (a = 10 * z0 + d)%Z by congruence. lia.
    + intros ->. now apply Ha.
Qed.

Lemma signed_without_minus (s : string) :
  startsWith s "-" = false -> fst (signed s) = 1%Z.
Proof.
  destruct s as [|c r]; [reflexivity|]. unfold startsWith.
  destruct c as [[] [] [] [] [] [] [] []]; intros H; try reflexivity.
  destruct r; vm_compute in H; discriminate H.
Qed.

Lemma signed_sign (s : string) :
  fst (signed s) = 1%Z \/ fst (signed s) = (-1)%Z.
Proof.
  destruct s as [|c r]; [now left|].
  destruct c as [[] [] [] [] [] [] [] []]; cbn; auto.
Qed.

Lemma at_least_one_truthy (d : number) :
  le (Int 1) d = true -> (isNaN d || isZero d)%bool = false.
Proof.
  intros H. apply le_one_cases in H. destruct H as [->|(z & -> & Hz)]; [reflexivity|].
  cbn. apply Z.eqb_neq. lia.
Qed.

Lemma orDefault_range (v : option qval) (d : number) :
  le (Int 1) d = true ->
  (isNaN (orDefault (parseInt10 v) d) || isZero (orDefault (parseInt10 v) d))%bool = false
  /\ (startsWith (trimStart (ToStringOpt v)) "-" = false ->
      le (Int 1) (orDefault (parseInt10 v) d) = true).
Proof.
  intros Hd. pose proof (at_least_one_truthy d Hd) as Td. unfold parseInt10.
  pose proof (signed_without_minus (trimStart (ToStringOpt v))) as Hs.
  pose proof (signed_sign (trimStart (ToStringOpt v))) as Hg.
  destruct (signed (trimStart (ToStringOpt v))) as [sg s]. cbn [fst] in Hs, Hg.
  destruct (digitsPrefix s None) as [n|] eqn:Hn.
  - assert (0 <= n)%Z by (apply (digitsPrefix_nonneg s None n); [discriminate|exact Hn]).
    destruct (Z.eqb_spec n 0) as [E|E].
    + assert (Z0 : orDefault (zero (sg <? 0)%Z) d = d).
      { unfold orDefault. now destruct (sg <? 0)%Z. }
      rewrite Z0. split; [exact Td | intros _; exact Hd].
    + assert (T : (isNaN (ofZ (sg * n)) || isZero (ofZ (sg * n)))%bool = false).
      { apply ofZ_truthy. destruct Hg as [->| ->]; lia. }
      assert (K : orDefault (ofZ (sg * n)) d = ofZ (sg * n)).
      { unfold orDefault. now rewrite T. }
      rewrite K. split; [exact T|].
      intros Hm. rewrite (Hs Hm). apply le_one_cases.
      destruct (ofZ_pos (1 * n) ltac:(lia)) as [[-> _]|(m & -> & Hm0 & _)]; [now left|].
      right. exists m. split; [reflexivity|lia].
  - change (orDefault NaN d) with d. split; [exact Td | intros _; exact Hd].
Qed.

(** X8. The page and the limit obtained are never zero nor [NaN], and
    each is at least 1 unless its text starts (after white space) with a
    minus sign; so the skip is negative only for a parameter with a minus
    sign. *)
Theorem paging_never_zero (q : query) :
  (isNaN (pageOf q) || isZero (pageOf q))%bool = false
  /\ (isNaN (limitOf q) || isZero (limitOf q))%bool = false
  /\ (startsWith (trimStart (ToStringOpt (getProp "page" q))) "-" = false ->
      le (Int 1) (pageOf q) = true)
  /\ (startsWith (trimStart (ToStringOpt (getProp "limit" q))) "-" = false ->
      le (Int 1) (limitOf q) = true)
  /\ (startsWith (trimStart (ToStringOpt (getProp "page" q))) "-" = false ->
      startsWith (trimStart (ToStringOpt (getProp "limit" q))) "-" = false ->
      lt (startIndex (pageOf q) (limitOf q)) (Int 0) = false).
Proof.
  unfold pageOf, limitOf.
  destruct (orDefault_range (getProp "page" q) (Int 1) eq_refl) as [P0 P1].
  destruct (orDefault_range (getProp "limit" q) (Int 25) eq_refl) as [L0 L1].
  repeat split; auto. intros Hp Hl.
  apply startIndex_of_positive; apply lt_zero_cases; apply le_one_cases; auto.
Qed.

Lemma paging_never_zero_witness :
  let q := [("page", QStr "0"); ("limit", QStr "  007")] in
  (pageOf q = Int 1 /\ limitOf q = Int 7)
  /\ lt (startIndex (pageOf q) (limitOf q)) (Int 0) = false.
Proof.
  intros q. split; [split; reflexivity|].
  exact (proj2 (proj2 (proj2 (proj2 (paging_never_zero q)))) eq_refl eq_refl).
Defined.

(** X9. Following [next] and then [prev] leads back: with page and limit
    at least 1 and a collection of at most 2^53 records, when the
    pagination object has a [next] window, the page and the limit are
    integers, that window is the next page exactly, it starts inside the
    collection, and the pagination object of the request for it has the
    current window as its [prev]. *)
Theorem next_then_prev_returns (page limit : number) (total : Z) (w : window) :
  le (Int 1) page = true -> le (Int 1) limit = true ->
  (0 <= total <= 2 ^ 53)%Z ->
  getProp "next" (pagination page limit total) = Some w ->
  w = Window (add page (Int 1)) limit
  /\ (exists p l, page = Int p /\ limit = Int l /\ w = Window (Int (p + 1)) (Int l)
                  /\ startIndex (w_page w) (w_limit w) = Int (p * l)
                  /\ (p * l < total)%Z)
  /\ lt (startIndex (w_page w) (w_limit w)) (ofZ total) = true
  /\ getProp "prev" (pagination (w_page w) (w_limit w) total)
     = Some (Window page limit).
Proof.
  intros Hp Hl Ht. rewrite pagination_next_field.
  destruct (lt (mul page limit) (ofZ total)) eqn:Hlt; [|discriminate].
  intros H. inversion H. subst w. clear H. cbn [w_page w_limit].
  split; [reflexivity|].
  apply le_one_cases in Hp. apply le_one_cases in Hl.
  destruct Hp as [->|(p & -> & Hp1)].
  { exfalso. destruct Hl as [->|(l & -> & Hl1)].
    - destruct (ofZ total) as [|[]| |]; discriminate Hlt.
    - unfold mul in Hlt. cbn [isNaN isInf isZero isNegative orb xorb] in Hlt.
      assert (E : (l =? 0)%Z = false) by (apply Z.eqb_neq; lia).
      assert (F : (l <? 0)%Z = false) by (apply Z.ltb_ge; lia).
      rewrite E, F in Hlt. destruct (ofZ total) as [|[]| |]; discriminate Hlt. }
  destruct Hl as [->|(l & -> & Hl1)].
  { exfalso. unfold mul in Hlt. cbn [isNaN isInf isZero isNegative orb xorb] in Hlt.
    assert (E : (p =? 0)%Z = false) by (apply Z.eqb_neq; lia).
    assert (F : (p <? 0)%Z = false) by (apply Z.ltb_ge; lia).
    rewrite E, F in Hlt. destruct (ofZ total) as [|[]| |]; discriminate Hlt. }
  assert (Hpl : (p * l < total)%Z).
  { rewrite mul_ints in Hlt by lia. rewrite lt_ofZ_count in Hlt by (try nia; lia).
    now apply Z.ltb_lt. }
  assert (Hadd : add (Int p) (Int 1) = Int (p + 1)).
  { rewrite add_one. apply ofZ_exact. nia. }
  assert (Hsub : sub (Int (p + 1)) (Int 1) = Int p).
  { rewrite sub_one. replace (p + 1 - 1)%Z with p by lia. apply ofZ_exact. nia. }
  assert (Hstart : startIndex (Int (p + 1)) (Int l) = Int (p * l)).
  { unfold startIndex. rewrite Hsub, mul_ints by lia. apply ofZ_exact. nia. }
  rewrite Hadd, Hstart.
  split; [exists p, l; repeat split; assumption|].
  split.
  { rewrite <- (ofZ_exact (p * l)) by nia. rewrite lt_ofZ_count by (try nia; lia).
    now apply Z.ltb_lt. }
  rewrite pagination_prev_field, Hstart, Hsub.
  assert (G : lt (Int 0) (Int (p * l)) = true) by (cbn; apply Z.ltb_lt; nia).
  now rewrite G.
Qed.

Lemma next_then_prev_returns_witness :
  getProp "prev" (pagination (Int 2) (Int 25) 60) = Some (Window (Int 1) (Int 25)).
Proof.
  exact (proj2 (proj2 (proj2 (next_then_prev_returns (Int 1) (Int 25) 60
                                (Window (Int 2) (Int 25))
                                eq_refl eq_refl ltac:(lia)
                                eq_refl)))).
Defined.

(** X10. On a query free of escapes whose [select] and [sort] are strings
    or absent, the list endpoint asks the store for the rewritten
    predicate with [skip = (page - 1) * limit] and the limit, populated
    with [courses]; it answers 200 with [count] the number of records in
    [data] when the store answers, and throws when the store rejects the
    query. *)
Theorem list_endpoint_follows_store (dr : Driver) (d : list bootcamp) (q : query)
  (sel : option string) (srt : string) :
  plainVal (QObj q) = true ->
  selectOf q = inr sel -> sortOf q = inr srt ->
  let asked := {| conditions := reparsed (mapStrings replaceOps (QObj (reqQueryOf q)));
                  populated := "courses"; selected := sel; sorted := srt;
                  skipped := startIndex (pageOf q) (limitOf q);
                  limited := limitOf q |} in
  (forall l, exec dr d asked = Some l ->
     ListEndpoint.getBootcamps dr d q
     = Json 200 [("success", JBool true);
                 ("count", JNum (Z.of_nat (length l)));
                 ("pagination",
                  JPagination (pagination (pageOf q) (limitOf q) (totalOf dr d)));
                 ("data", JDocs l)])
  /\ (exec dr d asked = None -> ListEndpoint.getBootcamps dr d q = Threw StoreError).
Proof.
  intros Hp Hs Ho asked. subst asked. unfold ListEndpoint.getBootcamps.
  rewrite (predicateOf_plain q Hp), Hs, Ho. cbv zeta.
  split; [intros l ->|intros ->]; reflexivity.
Qed.

Lemma list_endpoint_follows_store_witness :
  ListEndpoint.getBootcamps Sample.driver Sample.db
    [("housing", QStr "true"); ("limit", QStr "1"); ("page", QStr "2")]
  = Json 200 [("success", JBool true);
              ("count", JNum 1);
              ("pagination",
               JPagination [("next", Window (Int 3) (Int 1));
                            ("prev", Window (Int 1) (Int 1))]);
              ("data", JDocs [Bootcamp "b3" "u3" [("name", "Codemasters");
                                                  ("housing", "true")]])].
Proof.
  exact (proj1 (list_endpoint_follows_store Sample.driver Sample.db
                  [("housing", QStr "true"); ("limit", QStr "1"); ("page", QStr "2")]
                  None "-createdAt" eq_refl eq_refl eq_refl)
           [Bootcamp "b3" "u3" [("name", "Codemasters"); ("housing", "true")]]
           eq_refl).
Defined.

(** ** Reading, deleting and creating single bootcamps *)

(** Destructs the tests a run of a handler makes, one after the other. *)
Ltac split_run :=
  repeat (cbv beta iota; cbn [fst snd db trace];
          match goal with
          | |- context [match ?x with _ => _ end] =>
              lazymatch x with
              | context [match _ with _ => _ end] => fail
              | _ => destruct x eqn:?
              end
          end).

Lemma find_hasId (i : string) (d : list bootcamp) (b : bootcamp) :
  find (hasId i) d = Some b -> In b d /\ _id b = i.
Proof.
  intros H. apply find_some in H as [Hin Hid]. split; [exact Hin|].
  now apply String.eqb_eq.
Qed.

Lemma find_hasId_none (i : string) (d : list bootcamp) :
  find (hasId i) d = None -> forall b, In b d -> _id b <> i.
Proof.
  intros H b Hin E. apply (find_none _ _ H) in Hin. unfold hasId in Hin.
  rewrite E, String.eqb_refl in Hin. discriminate.
Qed.

(** X11. [getBootcamp] answers 200 with a record of the collection whose
    id is the requested one when there is one, and hands the 404 error to
    [next] when no record has that id; it never changes the collection. *)
Theorem getBootcamp_finds_by_id (req : request) (d : list bootcamp) :
  db (snd (run (getBootcamp req) d)) = d
  /\ (forall b, find (hasId (params_id req)) d = Some b ->
        In b d /\ _id b = params_id req
        /\ run (getBootcamp req) d
           = (Normal tt,
              {| db := d;
                 trace := [CallJson 200 [("success", JBool true); ("data", JDoc b)]] |}))
  /\ ((forall b, In b d -> _id b <> params_id req) ->
      run (getBootcamp req) d = rejected d (notFound req)).
Proof.
  unfold getBootcamp, notFound. run_handler.
  destruct (find (hasId (params_id req)) d) as [b|] eqn:Hf.
  - split; [reflexivity|]. split.
    + intros b' E. injection E as <-. destruct (find_hasId _ _ _ Hf). auto.
    + intros Hn. destruct (find_hasId _ _ _ Hf) as [Hin Hid]. now destruct (Hn b Hin).
  - split; [reflexivity|]. split; [discriminate | reflexivity].
Qed.

Lemma getBootcamp_finds_by_id_witness :
  run (getBootcamp (Scenario.request_ "b2" "u9" "user")) Sample.db
  = (Normal tt,
     {| db := Sample.db;
        trace := [CallJson 200
                    [("success", JBool true);
                     ("data", JDoc (Bootcamp "b2" "u2" [("name", "ModernTech");
                                                        ("housing", "false")]))]] |}).
Proof.
  exact (proj2 (proj2 (proj1 (proj2
    (getBootcamp_finds_by_id (Scenario.request_ "b2" "u9" "user") Sample.db))
    (Bootcamp "b2" "u2" [("name", "ModernTech"); ("housing", "false")]) eq_refl))).
Defined.

(** X12. A request for an id that no record has is answered alike by
    [getBootcamp], [updateBootcamp] and [deleteBootcamp]: the 404 error
    naming the id goes to [next], whoever asks, and the collection is
    unchanged. *)
Theorem missing_id_is_404 (ev : env) (req : request) (d : list bootcamp) :
  find (hasId (params_id req)) d = None ->
  run (getBootcamp req) d = rejected d (notFound req)
  /\ run (updateBootcamp ev req) d = rejected d (notFound req)
  /\ run (deleteBootcamp req) d = rejected d (notFound req)
  /\ message (notFound req) = "Bootcamp not found with id of " ++ params_id req.
Proof.
  intros Hf. unfold getBootcamp, updateBootcamp, deleteBootcamp, notFound.
  run_handler. rewrite Hf. repeat split.
Qed.

Lemma missing_id_is_404_witness :
  run (deleteBootcamp (Scenario.request_ "b9" "u1" "admin")) Sample.db
  = rejected Sample.db
      {| message := "Bootcamp not found with id of b9"; statusCode := 404 |}.
Proof.
  exact (proj1 (proj2 (proj2
    (missing_id_is_404 Scenario.ev (Scenario.request_ "b9" "u1" "admin")
       Sample.db eq_refl)))).
Defined.

Lemma find_after_remove (i : string) (d : list bootcamp) :
  find (hasId i) (filter (fun b' => negb (hasId i b')) d) = None.
Proof.
  induction d as [|b d IH]; [reflexivity|]. cbn [filter].
  destruct (hasId i b) eqn:E; cbn [negb]; [exact IH|].
  cbn [find]. now rewrite E.
Qed.

(** X13. [deleteBootcamp] on an existing record lets the requester
    through exactly when it owns the record or has the role [admin]: then
    every record with that id is removed, the others stay in order, and
    the 200 body carries the removed record; otherwise the 401 error goes
    to [next] and the collection is unchanged. *)
Theorem delete_for_owner_or_admin (req : request) (d : list bootcamp) (b : bootcamp) :
  find (hasId (params_id req)) d = Some b ->
  (mayChange req b = true ->
   run (deleteBootcamp req) d
   = (Normal tt,
      {| db := filter (fun b' => negb (hasId (params_id req) b')) d;
         trace := [CallJson 200
                     [("success", JBool true);
                      ("message", JStr "The following document has been deleted!");
                      ("bootcamp", JDoc b)]] |}))
  /\ (mayChange req b = false ->
      run (deleteBootcamp req) d = rejected d (unauthorized "delete" req)).
Proof.
  intros Hf. rewrite (deleteBootcamp_gate req d b Hf). unfold mayChange.
  destruct (find_hasId _ _ _ Hf) as [_ Hid]. rewrite Hid.
  split; intros ->; reflexivity.
Qed.

Lemma delete_for_owner_or_admin_witness :
  map _id (db (snd (run (deleteBootcamp (Scenario.request_ "b2" "u2" "publisher"))
                        Sample.db)))
  = ["b1"; "b3"].
Proof.
  rewrite (proj1 (delete_for_owner_or_admin (Scenario.request_ "b2" "u2" "publisher")
                    Sample.db
                    (Bootcamp "b2" "u2" [("name", "ModernTech"); ("housing", "false")])
                    eq_refl) eq_refl).
  reflexivity.
Defined.

(** X14. Deleting and then reading: after a delete that went through,
    [getBootcamp] for the same id gets the 404 error, and a record with
    another id is read as before. *)
Theorem delete_then_get (req req' : request) (d : list bootcamp) (b : bootcamp) :
  find (hasId (params_id req)) d = Some b ->
  mayChange req b = true ->
  let d' := db (snd (run (deleteBootcamp req) d)) in
  (params_id req' = params_id req ->
   run (getBootcamp req') d' = rejected d' (notFound req'))
  /\ (params_id req' <> params_id req ->
      find (hasId (params_id req')) d' = find (hasId (params_id req')) d).
Proof.
  intros Hf Hm d'. subst d'. rewrite (deleteBootcamp_gate req d b Hf).
  unfold mayChange in Hm. rewrite Hm. cbn [snd db].
  destruct (find_hasId _ _ _ Hf) as [_ Hid]. rewrite Hid. split.
  - intros E. unfold getBootcamp, notFound. run_handler.
    rewrite E, find_after_remove. reflexivity.
  - intros Hne. clear Hf Hm Hid. induction d as [|x d IH]; [reflexivity|].
    cbn [filter find]. destruct (hasId (params_id req) x) eqn:E1; cbn [negb find].
    + destruct (hasId (params_id req') x) eqn:E2; [|exact IH].
      unfold hasId in E1, E2. apply String.eqb_eq in E1, E2. congruence.
    + now rewrite IH.
Qed.

Lemma delete_then_get_witness :
  let d' := db (snd (run (deleteBootcamp (Scenario.request_ "b1" "u1" "publisher"))
                         Sample.db)) in
  run (getBootcamp (Scenario.request_ "b1" "u3" "user")) d'
  = rejected d' {| message := "Bootcamp not found with id of b1"; statusCode := 404 |}.
Proof.
  exact (proj1 (delete_then_get (Scenario.request_ "b1" "u1" "publisher")
                  (Scenario.request_ "b1" "u3" "user") Sample.db
                  (Bootcamp "b1" "u1" [("name", "Devworks"); ("housing", "true")])
                  eq_refl eq_refl) eq_refl).
Defined.

Lemma getProp_setProp_same {A : Type} (k : string) (v : A) (o : list (string * A)) :
  getProp k (setProp k v o) = Some v.
Proof.
  induction o as [|[k0 v0] o IH]; cbn [setProp getProp].
  - now rewrite String.eqb_refl.
  - destruct (String.eqb k k0) eqn:E; cbn [getProp]; rewrite ?String.eqb_refl, ?E;
      [reflexivity | exact IH].
Qed.

Lemma created_owner (ev : env) (req : request) :
  user (created ev req) = id (req_user req) /\ _id (created ev req) = newId ev.
Proof.
  unfold created, applyBody. cbn [user _id]. now rewrite getProp_setProp_same.
Qed.

(** How [createBootcamp] ends, case by case. *)
Lemma createBootcamp_cases (ev : env) (req : request) (d : list bootcamp) :
  run (createBootcamp ev req) d
  = match find (fun b => String.eqb (user b) (id (req_user req))) d with
    | Some _ =>
        if String.eqb (role (req_user req)) "admin" then
          if validates ev (setProp "user" (id (req_user req)) (req_body req)) then
            (Normal tt,
             {| db := d ++ [created ev req];
                trace := [CallJson 201 [("success", JBool true);
                                        ("data", JDoc (created ev req))]] |})
          else (Thrown StoreError, {| db := d; trace := [] |})
        else rejected d (alreadyPublished req)
    | None =>
        if validates ev (setProp "user" (id (req_user req)) (req_body req)) then
          (Normal tt,
           {| db := d ++ [created ev req];
              trace := [CallJson 201 [("success", JBool true);
                                      ("data", JDoc (created ev req))]] |})
        else (Thrown StoreError, {| db := d; trace := [] |})
    end.
Proof.
  unfold createBootcamp, created. run_handler.
  destruct (find _ d); [destruct (String.eqb (role (req_user req)) "admin")|];
    cbn; try destruct (validates ev _); reflexivity.
Qed.

(** A creation that went through has added one record, owned by the
    requester. *)
Lemma created_record_owner (ev : env) (req : request) (d : list bootcamp) :
  fst (run (createBootcamp ev req) d) = Normal tt ->
  exists b, db (snd (run (createBootcamp ev req) d)) = (d ++ [b])%list
    /\ user b = id (req_user req).
Proof.
  rewrite createBootcamp_cases.
  destruct (created_owner ev req) as [Hu Hi].
  destruct (find _ d); [destruct (String.eqb (role (req_user req)) "admin")|];
    try destruct (validates ev _); cbn [fst snd db trace rejected];
    intros H; try discriminate H; exists (created ev req); auto.
Qed.

(** X15. [createBootcamp] stores at most one record, and only when it
    answers 201: the record stored is the one in the body of the answer,
    it has the identity the store gave it and its owner is the requester,
    whatever [user] the request body names.  A run that ends otherwise
    leaves the collection unchanged. *)
Theorem create_stores_requester_as_owner (ev : env) (req : request)
  (d : list bootcamp) :
  let r := run (createBootcamp ev req) d in
  (fst r = Normal tt ->
   exists b, db (snd r) = (d ++ [b])%list
     /\ trace (snd r) = [CallJson 201 [("success", JBool true); ("data", JDoc b)]]
     /\ user b = id (req_user req) /\ _id b = newId ev)
  /\ (fst r <> Normal tt -> db (snd r) = d).
Proof.
  intros r. subst r. rewrite createBootcamp_cases.
  destruct (created_owner ev req) as [Hu Hi].
  destruct (find _ d); [destruct (String.eqb (role (req_user req)) "admin")|];
    try destruct (validates ev _); cbn [fst snd db trace rejected];
    (split; [intros H; try discriminate H; exists (created ev req); auto
            | intros H; try reflexivity; now destruct H]).
Qed.

Lemma create_stores_requester_as_owner_witness :
  exists b,
    db (snd (run (createBootcamp Scenario.ev
                    {| params_id := EmptyString;
                       req_user := {| id := "u7"; role := "publisher" |};
                       userrole := None;
                       req_body := [("name", "Devcentral"); ("user", "u1")];
                       files := None;
                       advancedResults := [] |}) Sample.db))
    = (Sample.db ++ [b])%list
    /\ user b = "u7".
Proof.
  destruct (proj1 (create_stores_requester_as_owner Scenario.ev
                     {| params_id := EmptyString;
                        req_user := {| id := "u7"; role := "publisher" |};
                        userrole := None;
                        req_body := [("name", "Devcentral"); ("user", "u1")];
                        files := None;
                        advancedResults := [] |} Sample.db) eq_refl)
    as (b & Hd & _ & Hu & _).
  exists b. split; [exact Hd | exact Hu].
Defined.

Lemma find_app_fresh (i : string) (d : list bootcamp) (b : bootcamp) :
  find (hasId i) d = None -> _id b = i ->
  find (hasId i) (d ++ [b]) = Some b.
Proof.
  intros Hn Hb. induction d as [|x d IH]; cbn [app find] in *.
  - unfold hasId. now rewrite Hb, String.eqb_refl.
  - destruct (hasId i x); [discriminate | now apply IH].
Qed.

(** X16. Creating and then reading: when the store gives the new record
    an identity no record has yet, [getBootcamp] for that identity, on the
    collection a successful creation leaves, answers 200 with the record
    the creation answered. *)
Theorem create_then_get (ev : env) (req req' : request) (d : list bootcamp) :
  find (hasId (newId ev)) d = None ->
  fst (run (createBootcamp ev req) d) = Normal tt ->
  params_id req' = newId ev ->
  let d' := db (snd (run (createBootcamp ev req) d)) in
  trace (snd (run (createBootcamp ev req) d))
  = [CallJson 201 [("success", JBool true); ("data", JDoc (created ev req))]]
  /\ run (getBootcamp req') d'
     = (Normal tt,
        {| db := d';
           trace := [CallJson 200 [("success", JBool true);
                                   ("data", JDoc (created ev req))]] |}).
Proof.
  intros Hfresh Hok Hid d'. subst d'. revert Hok. rewrite createBootcamp_cases.
  destruct (created_owner ev req) as [_ Hi].
  assert (G : run (getBootcamp req') (d ++ [created ev req])
              = (Normal tt,
                 {| db := (d ++ [created ev req])%list;
                    trace := [CallJson 200 [("success", JBool true);
                                            ("data", JDoc (created ev req))]] |})).
  { unfold getBootcamp. run_handler.
    rewrite Hid, (find_app_fresh _ _ _ Hfresh Hi). reflexivity. }
  destruct (find (fun b => String.eqb (user b) (id (req_user req))) d);
    [destruct (String.eqb (role (req_user req)) "admin")|];
    try destruct (validates ev _); cbn [fst snd db trace rejected];
    intros H; try discriminate H; (split; [reflexivity | exact G]).
Qed.

Lemma create_then_get_witness :
  let d' := db (snd (run (createBootcamp Scenario.ev
                            (Scenario.request_ "" "u7" "publisher")) Sample.db)) in
  run (getBootcamp (Scenario.request_ "b4" "u1" "user")) d'
  = (Normal tt,
     {| db := d';
        trace := [CallJson 200 [("success", JBool true);
                                ("data", JDoc (Bootcamp "b4" "u7"
                                                 [("name", "Devcentral")]))]] |}).
Proof.
  exact (proj2 (create_then_get Scenario.ev (Scenario.request_ "" "u7" "publisher")
                  (Scenario.request_ "b4" "u1" "user") Sample.db
                  eq_refl eq_refl eq_refl)).
Defined.

(** X17. One bootcamp per publisher: after a creation that went through,
    a further creation by the same requester, when its role is not
    [admin], is refused with the 400 error whatever its body is, and
    stores nothing. *)
Theorem second_creation_refused (ev ev' : env) (req req' : request)
  (d : list bootcamp) :
  fst (run (createBootcamp ev req) d) = Normal tt ->
  id (req_user req') = id (req_user req) ->
  String.eqb (role (req_user req')) "admin" = false ->
  let d' := db (snd (run (createBootcamp ev req) d)) in
  run (createBootcamp ev' req') d' = rejected d' (alreadyPublished req').
Proof.
  intros Hok Hid Hrole d'.
  destruct (created_record_owner ev req d Hok) as (b & Hd & Hu).
  subst d'. rewrite Hd.
  assert (Hin : exists x, find (fun b0 => String.eqb (user b0) (id (req_user req')))
                               (d ++ [b]) = Some x).
  { destruct (find (fun b0 => String.eqb (user b0) (id (req_user req'))) (d ++ [b]))
      as [x|] eqn:Hf; [now exists x|].
    exfalso. assert (Hb : In b (d ++ [b])) by (apply in_or_app; right; now left).
    apply (find_none _ _ Hf) in Hb. rewrite Hu, Hid, String.eqb_refl in Hb.
    discriminate. }
  destruct Hin as [x Hx]. rewrite createBootcamp_cases, Hx, Hrole. reflexivity.
Qed.

Lemma second_creation_refused_witness :
  let d' := db (snd (run (createBootcamp Scenario.ev
                            (Scenario.request_ "" "u7" "publisher")) Sample.db)) in
  run (createBootcamp Scenario.ev (Scenario.request_ "" "u7" "publisher")) d'
  = rejected d'
      {| message := "The user with ID u7 has already published a bootcamp";
         statusCode := 400 |}.
Proof.
  exact (second_creation_refused Scenario.ev Scenario.ev
           (Scenario.request_ "" "u7" "publisher")
           (Scenario.request_ "" "u7" "publisher") Sample.db
           eq_refl eq_refl eq_refl).
Defined.

(** X18. A first bootcamp is never refused by the handler: when no record
    of the collection is owned by the requester, whatever its role, the
    creation answers 201 and adds the record if the store accepts the
    body, and throws without answering or storing anything if the store
    rejects it. *)
Theorem first_creation_allowed (ev : env) (req : request) (d : list bootcamp) :
  (forall b, In b d -> user b <> id (req_user req)) ->
  (validates ev (setProp "user" (id (req_user req)) (req_body req)) = true ->
   run (createBootcamp ev req) d
   = (Normal tt,
      {| db := d ++ [created ev req];
         trace := [CallJson 201 [("success", JBool true);
                                 ("data", JDoc (created ev req))]] |}))
  /\ (validates ev (setProp "user" (id (req_user req)) (req_body req)) = false ->
      run (createBootcamp ev req) d = (Thrown StoreError, {| db := d; trace := [] |})).
Proof.
  intros Hn. rewrite createBootcamp_cases.
  destruct (find (fun b => String.eqb (user b) (id (req_user req))) d) as [b|] eqn:Hf.
  - apply find_some in Hf as [Hin Hb]. apply String.eqb_eq in Hb.
    now destruct (Hn b Hin).
  - split; intros ->; reflexivity.
Qed.

Lemma first_creation_allowed_witness :
  map _id (db (snd (run (createBootcamp Scenario.ev
                           (Scenario.request_ "" "u7" "user")) Sample.db)))
  = ["b1"; "b2"; "b3"; "b4"].
Proof.
  rewrite (proj1 (first_creation_allowed Scenario.ev
                    (Scenario.request_ "" "u7" "user") Sample.db
                    ltac:(intros b [<-|[<-|[<-|[]]]]; discriminate)) eq_refl).
  reflexivity.
Defined.

(** ** Updating, and the photo upload *)

Lemma update_keeps_ids (i : string) (bd : list (string * string)) (d : list bootcamp) :
  map _id (map (fun b => if hasId i b then applyBody b bd else b) d) = map _id d.
Proof.
  rewrite map_map. apply map_ext. intros b. now destruct (hasId i b).
Qed.

Lemma find_updated (i : string) (bd : list (string * string)) (d : list bootcamp) :
  find (hasId i) (map (fun b => if hasId i b then applyBody b bd else b) d)
  = option_map (fun b => applyBody b bd) (find (hasId i) d).
Proof.
  induction d as [|b d IH]; [reflexivity|]. cbn [map find].
  destruct (hasId i b) eqn:E.
  - unfold hasId in *. cbn [applyBody _id]. now rewrite E.
  - now rewrite E.
Qed.

(** X19. [getBootcamp], [updateBootcamp] and [bootcampPhotoUpload] never
    add or remove a record and never change an identity: after any run
    the collection has the same identities in the same order. *)
Theorem identities_preserved (ev : env) (req : request) (d : list bootcamp) :
  map _id (db (snd (run (getBootcamp req) d))) = map _id d
  /\ map _id (db (snd (run (updateBootcamp ev req) d))) = map _id d
  /\ map _id (db (snd (run (bootcampPhotoUpload ev req) d))) = map _id d.
Proof.
  unfold getBootcamp, updateBootcamp, bootcampPhotoUpload. run_handler.
  split; [|split]; split_run; cbn [snd db]; rewrite ?update_keeps_ids; reflexivity.
Qed.

(** X20. Updating and then reading: when the owner updates an existing
    record with a body the store accepts, the answer is 200 with the
    updated record, and [getBootcamp] for the same id then answers with
    that same record; with a body the store rejects, the run throws,
    nothing is answered and the collection is unchanged. *)
Theorem update_then_get (ev : env) (req req' : request) (d : list bootcamp)
  (b : bootcamp) :
  find (hasId (params_id req)) d = Some b ->
  user b = id (req_user req) ->
  params_id req' = params_id req ->
  let updated := applyBody b (req_body req) in
  let d' := map (fun x => if hasId (params_id req) x
                          then applyBody x (req_body req) else x) d in
  (validates ev (req_body req) = true ->
   run (updateBootcamp ev req) d
   = (Normal tt,
      {| db := d';
         trace := [CallJson 200 [("success", JBool true); ("data", JDoc updated)]] |})
   /\ run (getBootcamp req') d'
      = (Normal tt,
         {| db := d';
            trace := [CallJson 200 [("success", JBool true); ("data", JDoc updated)]] |}))
  /\ (validates ev (req_body req) = false ->
      run (updateBootcamp ev req) d = (Thrown StoreError, {| db := d; trace := [] |})).
Proof.
  intros Hf Hu Hid updated d'. subst updated d'.
  unfold updateBootcamp, getBootcamp. run_handler.
  rewrite Hid, Hf, Hu, String.eqb_refl. cbn.
  split; intros ->; cbn; rewrite ?find_updated, ?Hf; cbn;
    [split; reflexivity | reflexivity].
Qed.

Lemma update_then_get_witness :
  run (updateBootcamp Scenario.ev (Scenario.request_ "b2" "u2" "publisher")) Sample.db
  = (Normal tt,
     {| db := [Bootcamp "b1" "u1" [("name", "Devworks"); ("housing", "true")];
               Bootcamp "b2" "u2" [("name", "Devcentral"); ("housing", "false")];
               Bootcamp "b3" "u3" [("name", "Codemasters"); ("housing", "true")]];
        trace := [CallJson 200
                    [("success", JBool true);
                     ("data", JDoc (Bootcamp "b2" "u2" [("name", "Devcentral");
                                                        ("housing", "false")]))]] |}).
Proof.
  exact (proj1 (proj1 (update_then_get Scenario.ev
                         (Scenario.request_ "b2" "u2" "publisher")
                         (Scenario.request_ "b2" "u2" "publisher") Sample.db
                         (Bootcamp "b2" "u2" [("name", "ModernTech"); ("housing", "false")])
                         eq_refl eq_refl eq_refl) eq_refl)).
Defined.

(** X21. The checks of the photo upload, for a requester that passes the
    ownership gate on an existing record, in their order: no upload at all
    gives the 400 error asking for a file; an upload without a field
    named [file] throws; an image above [MAX_UPLOAD] gives the 400 error
    that names the limit.  None of them moves a file or changes the
    collection, and when [MAX_UPLOAD] is no number no size is too
    large. *)
Theorem upload_checks_in_order (ev : env) (req : request) (d : list bootcamp)
  (b : bootcamp) :
  find (hasId (params_id req)) d = Some b ->
  mayChange req b = true ->
  (files req = None -> run (bootcampPhotoUpload ev req) d = rejected d noFile)
  /\ (forall fs, files req = Some fs -> getProp "file" fs = None ->
        run (bootcampPhotoUpload ev req) d
        = (Thrown (TypeError "Cannot read property 'mimetype' of undefined"),
           {| db := d; trace := [] |}))
  /\ (forall fs file, files req = Some fs -> getProp "file" fs = Some file ->
        startsWith (mimetype file) "image" = true ->
        exceeds (size file) ev = true ->
        run (bootcampPhotoUpload ev req) d = rejected d (tooLarge ev))
  /\ (MAX_UPLOAD_number ev = None -> forall sz, exceeds sz ev = false).
Proof.
  intros Hf Hm. unfold mayChange in Hm.
  assert (G : negb (String.eqb (user b) (id (req_user req)))
              && differs (Some (role (req_user req))) "admin" = false).
  { unfold differs. apply orb_true_iff in Hm as [-> | ->];
      [reflexivity | apply andb_false_r]. }
  unfold bootcampPhotoUpload. run_handler. rewrite Hf. cbv beta iota. rewrite G.
  split; [|split; [|split]].
  - intros ->. reflexivity.
  - intros fs -> ->. reflexivity.
  - intros fs file -> -> -> ->. reflexivity.
  - intros Hn sz. unfold exceeds. now rewrite Hn.
Qed.

Lemma upload_checks_in_order_witness :
  run (bootcampPhotoUpload Scenario.ev
         (Scenario.upload_ "b1" "u1" "publisher"
            {| name := "huge.png"; mimetype := "image/png"; size := 5000000 |}))
      Sample.db
  = rejected Sample.db
      {| message := "Please upload an image less than 1000000"; statusCode := 400 |}.
Proof.
  exact (proj1 (proj2 (proj2
    (upload_checks_in_order Scenario.ev
       (Scenario.upload_ "b1" "u1" "publisher"
          {| name := "huge.png"; mimetype := "image/png"; size := 5000000 |})
       Sample.db (Bootcamp "b1" "u1" [("name", "Devworks"); ("housing", "true")])
       eq_refl eq_refl)))
    [("file", {| name := "huge.png"; mimetype := "image/png"; size := 5000000 |})]
    {| name := "huge.png"; mimetype := "image/png"; size := 5000000 |}
    eq_refl eq_refl eq_refl eq_refl).
Defined.

(** X22. An image within the limit, uploaded by a requester that passes
    the gate: the file is moved once, to the upload directory, under the
    name [photo_] + the record's id + the extension of the uploaded name.
    When the move succeeds the record's [photo] field becomes that name
    and the 200 body carries it; when the move fails the 500 error goes to
    [next] after the error is logged, and the record is left as it was. *)
Theorem upload_moves_then_records (ev : env) (req : request) (d : list bootcamp)
  (b : bootcamp) (fs : list (string * File)) (file : File) :
  find (hasId (params_id req)) d = Some b ->
  mayChange req b = true ->
  files req = Some fs ->
  getProp "file" fs = Some file ->
  startsWith (mimetype file) "image" = true ->
  exceeds (size file) ev = false ->
  let stored := photoName ev b file in
  let d' := map (fun x => if hasId (params_id req) x
                          then applyBody x [("photo", stored)] else x) d in
  (mvFails ev = false ->
   run (bootcampPhotoUpload ev req) d
   = (Normal tt,
      {| db := d';
         trace := [CallMv (photoPath ev b file);
                   CallJson 200 [("succes", JBool true); ("data", JStr stored)]] |})
   /\ exists b', find (hasId (params_id req)) d' = Some b'
        /\ getProp "photo" (fields b') = Some stored
        /\ user b' = user b)
  /\ (mvFails ev = true ->
      run (bootcampPhotoUpload ev req) d
      = (Returned,
         {| db := d;
            trace := [CallMv (photoPath ev b file); ConsoleError;
                      NewErrorResponse uploadFailed; CallNext uploadFailed] |})).
Proof.
  intros Hf Hm Hfs Hfile Himg Hsz stored d'. subst stored d'.
  unfold mayChange in Hm.
  assert (G : negb (String.eqb (user b) (id (req_user req)))
              && differs (Some (role (req_user req))) "admin" = false).
  { unfold differs. apply orb_true_iff in Hm as [-> | ->];
      [reflexivity | apply andb_false_r]. }
  unfold bootcampPhotoUpload, photoPath, photoName. run_handler.
  rewrite Hf. cbv beta iota. rewrite G, Hfs. cbv beta iota.
  rewrite Hfile. cbv beta iota. rewrite Himg, Hsz. cbn [negb].
  split; intros ->; [split; [reflexivity|] | reflexivity].
  rewrite find_updated, Hf. cbn [option_map]. eexists. split; [reflexivity|].
  unfold applyBody. cbn [fields user getProp deleteProp filter fst snd fold_left
                         String.eqb Ascii.eqb Bool.eqb negb].
  split; [apply getProp_setProp_same | reflexivity].
Qed.

Lemma upload_moves_then_records_witness :
  run (bootcampPhotoUpload Scenario.ev
         (Scenario.upload_ "b3" "u9" "admin" Scenario.photoFile)) Sample.db
  = (Normal tt,
     {| db := [Bootcamp "b1" "u1" [("name", "Devworks"); ("housing", "true")];
               Bootcamp "b2" "u2" [("name", "ModernTech"); ("housing", "false")];
               Bootcamp "b3" "u3" [("name", "Codemasters"); ("housing", "true");
                                   ("photo", "photo_b3.jpg")]];
        trace := [CallMv "./public/uploads/photo_b3.jpg";
                  CallJson 200 [("succes", JBool true);
                                ("data", JStr "photo_b3.jpg")]] |}).
Proof.
  exact (proj1 (proj1 (upload_moves_then_records Scenario.ev
                         (Scenario.upload_ "b3" "u9" "admin" Scenario.photoFile)
                         Sample.db
                         (Bootcamp "b3" "u3" [("name", "Codemasters"); ("housing", "true")])
                         [("file", Scenario.photoFile)] Scenario.photoFile
                         eq_refl eq_refl eq_refl eq_refl eq_refl eq_refl) eq_refl)).
Defined.

(** ** Every run ends once *)



(** ** The radius search *)

(** X24. The radius search answers 200 with the records of the collection
    inside the sphere around the first location the geocoder gives, in
    the order of the collection, and with [count] their number; when the
    geocoder gives no location it throws before asking the store.  It
    never changes the collection. *)
Theorem radius_counts_what_it_returns (g : Geo) (zipcode distance : string)
  (d : list bootcamp) :
  db (snd (run (getBootcampsInRadius g zipcode distance) d)) = d
  /\ (geocode g zipcode = [] ->
      run (getBootcampsInRadius g zipcode distance) d
      = (Thrown (TypeError "Cannot read property 'latitude' of undefined"),
         {| db := d; trace := [] |}))
  /\ (forall lat lng rest, geocode g zipcode = (lat, lng) :: rest ->
        let found := filter (centerSphere g lng lat (over3963 g distance)) d in
        run (getBootcampsInRadius g zipcode distance) d
        = (Normal tt,
           {| db := d;
              trace := [CallJson 200 [("success", JBool true);
                                      ("count", JNum (Z.of_nat (length found)));
                                      ("data", JDocs found)]] |})
        /\ (forall b, In b found -> In b d)).
Proof.
  unfold getBootcampsInRadius, findWhere. run_handler.
  destruct (geocode g zipcode) as [|[lat lng] rest].
  - split; [reflexivity|]. split; [reflexivity | discriminate].
  - split; [reflexivity|]. split; [discriminate|].
    intros lat' lng' rest' E. injection E as <- <- <-. cbv zeta.
    split; [reflexivity|]. intros b Hb. now apply filter_In in Hb.
Qed.

Lemma radius_counts_what_it_returns_witness :
  run (getBootcampsInRadius sampleGeo "02118" "10") Sample.db
  = (Normal tt,
     {| db := Sample.db;
        trace := [CallJson 200
                    [("success", JBool true);
                     ("count", JNum 2);
                     ("data", JDocs [Bootcamp "b1" "u1" [("name", "Devworks");
                                                         ("housing", "true")];
                                     Bootcamp "b3" "u3" [("name", "Codemasters");
                                                         ("housing", "true")]])]] |}).
Proof.
  exact (proj1 (proj2 (proj2
    (radius_counts_what_it_returns sampleGeo "02118" "10" Sample.db))
    42%Z (-71)%Z [] eq_refl)).
Defined.
